(** * NFT analytics tools: scoring heuristics and metric normalisation

    A shallow embedding of the scoring code of the analytics server
    (the five tool handlers and the upstream client) together with the
    properties its specification states about them.

    The handlers are embedded from the point where they hold the data of
    the upstream client; a request to the client appears where a property
    depends on it (checkWalletRisk).  The sentences the handlers generate
    for a human reader ([analysis], [reasoning]) and the serialisation of
    a result as JSON text are left out.

    ** Numbers

    Every quantity of the source is a JavaScript [number].  The embedding
    keeps the four kinds of value a [number] can be: a finite value, the two
    infinities and NaN.  A finite value is the rational that the double
    denotes, kept in lowest terms: comparisons of finite doubles ([<], [>],
    [<=], [>=], [===]) are exact, so they agree with the comparisons of the
    rationals.  Arithmetic is that of IEEE 754 binary64: the exact result
    is rounded to the nearest double, to the one with the even significand
    on a tie, with gradual underflow and overflow to an infinity
    ([round64]); a decimal literal of the source is the double nearest to
    it ([double]).  The sign of zero is not tracked: [-0] reads as [0]. *)

From Stdlib Require Import QArith Qround Qabs ZArith List String Ascii Bool Lia Lqa
  DecimalString DecimalNat Sorted Permutation SpecFloat.
Import ListNotations.

Open Scope string_scope.

(** ** JavaScript numbers *)

Inductive number : Type :=
| Num (q : Q)
| PosInf
| NegInf
| NaN.

Declare Scope js_scope.
Delimit Scope js_scope with js.
Bind Scope js_scope with number.

Definition Qltb (x y : Q) : bool := negb (Qle_bool y x).

Definition isNaN (a : number) : bool :=
  match a with NaN => true | _ => false end.

(** [a < b]: false as soon as one side is NaN. *)
Definition num_lt (a b : number) : bool :=
  match a, b with
  | NaN, _ | _, NaN => false
  | Num x, Num y => Qltb x y
  | NegInf, NegInf => false
  | NegInf, _ => true
  | _, PosInf => match a with PosInf => false | _ => true end
  | _, _ => false
  end.

(** [a <= b] is [!(b < a)] unless one side is NaN. *)
Definition num_le (a b : number) : bool :=
  negb (isNaN a) && negb (isNaN b) && negb (num_lt b a).

Definition num_gt (a b : number) : bool := num_lt b a.
Definition num_ge (a b : number) : bool := num_le b a.

(** [a === b] on numbers. *)
Definition num_eq (a b : number) : bool :=
  match a, b with
  | Num x, Num y => Qeq_bool x y
  | PosInf, PosInf => true
  | NegInf, NegInf => true
  | _, _ => false
  end.

(** *** Rounding to binary64

    [floor_log2 a b] is the exponent of the binade of [a/b]: the [e] with
    [2^e <= a/b < 2^(e+1)]. *)
Definition floor_log2 (a b : positive) : Z :=
  let d := (Z.log2 (Zpos a) - Z.log2 (Zpos b))%Z in
  if (Zpos a * 2 ^ Z.max 0 (- d) <? Zpos b * 2 ^ Z.max 0 d)%Z
  then (d - 1)%Z else d.

(** The integer nearest to [n/d], the even one on a tie. *)
Definition nearest_even (n d : Z) : Z :=
  let q := (n / d)%Z in
  match (2 * (n mod d) ?= d)%Z with
  | Lt => q
  | Gt => (q + 1)%Z
  | Eq => if Z.even q then q else (q + 1)%Z
  end.

(** The double nearest to the positive rational [a/b], [None] when that
    is beyond the largest double.  The significand is the integer nearest
    to [a/b] in units of [2^e], where [e] leaves it 53 bits and does not
    go below the exponent -1074 of the subnormal doubles. *)
Definition round_magnitude (a b : positive) : option Q :=
  let e := Z.max (floor_log2 a b - 52) (-1074) in
  let m := nearest_even (Zpos a * 2 ^ Z.max 0 (- e)) (Zpos b * 2 ^ Z.max 0 e) in
  let n := (m * 2 ^ Z.max 0 e)%Z in
  if (2 ^ 1024 <=? n)%Z then None
  else Some (Qred (n # Z.to_pos (2 ^ Z.max 0 (- e)))).

(** The double that an exact result [x] rounds to. *)
Definition round64 (x : Q) : number :=
  match Qnum x with
  | Z0 => Num 0
  | Zpos a =>
      match round_magnitude a (Qden x) with
      | Some v => Num v
      | None => PosInf
      end
  | Zneg a =>
      match round_magnitude a (Qden x) with
      | Some v => Num (Qred (- v))
      | None => NegInf
      end
  end.

(** A decimal literal of the source, such as [0.35]. *)
Definition double (literal : Q) : number := round64 literal.

Definition num_neg (a : number) : number :=
  match a with
  | Num x => Num (Qred (- x))
  | PosInf => NegInf
  | NegInf => PosInf
  | NaN => NaN
  end.

Definition num_add (a b : number) : number :=
  match a, b with
  | NaN, _ | _, NaN => NaN
  | Num x, Num y => round64 (x + y)
  | PosInf, NegInf | NegInf, PosInf => NaN
  | PosInf, _ | _, PosInf => PosInf
  | NegInf, _ | _, NegInf => NegInf
  end.

Definition num_sub (a b : number) : number := num_add a (num_neg b).

(** The infinity whose sign is that of [x] times [pos]; NaN when [x] is 0. *)
Definition inf_signed (pos : bool) (x : Q) : number :=
  if Qeq_bool x 0 then NaN
  else if Bool.eqb pos (Qltb 0 x) then PosInf else NegInf.

Definition num_mul (a b : number) : number :=
  match a, b with
  | NaN, _ | _, NaN => NaN
  | Num x, Num y => round64 (x * y)
  | PosInf, Num x | Num x, PosInf => inf_signed true x
  | NegInf, Num x | Num x, NegInf => inf_signed false x
  | PosInf, PosInf | NegInf, NegInf => PosInf
  | PosInf, NegInf | NegInf, PosInf => NegInf
  end.

(** Division never throws: [x / 0] is an infinity and [0 / 0] is NaN. *)
Definition num_div (a b : number) : number :=
  match a, b with
  | NaN, _ | _, NaN => NaN
  | Num x, Num y =>
      if Qeq_bool y 0 then inf_signed true x else round64 (x / y)
  | Num _, _ => Num 0
  | PosInf, Num y => if Qltb y 0 then NegInf else PosInf
  | NegInf, Num y => if Qltb y 0 then PosInf else NegInf
  | _, _ => NaN
  end.

Definition Math_abs (a : number) : number :=
  match a with
  | Num x => Num (Qred (Qabs x))
  | PosInf | NegInf => PosInf
  | NaN => NaN
  end.

Definition Math_floor (a : number) : number :=
  match a with
  | Num x => Num (inject_Z (Qfloor x))
  | _ => a
  end.

Definition Math_max (a b : number) : number :=
  if isNaN a || isNaN b then NaN else if num_lt a b then b else a.

Definition Math_min (a b : number) : number :=
  if isNaN a || isNaN b then NaN else if num_lt b a then b else a.

(** Truthiness of a number: 0 and NaN are falsy. *)
Definition num_truthy (a : number) : bool :=
  match a with
  | Num x => negb (Qeq_bool x 0)
  | NaN => false
  | _ => true
  end.

(** [a || b] on numbers. *)
Definition num_or (a b : number) : number := if num_truthy a then a else b.

Definition of_nat (n : nat) : number := Num (inject_Z (Z.of_nat n)).

Notation "a <? b" := (num_lt a b) : js_scope.
Notation "a <=? b" := (num_le a b) : js_scope.
Notation "a >? b" := (num_gt a b) : js_scope.
Notation "a >=? b" := (num_ge a b) : js_scope.
Notation "a =? b" := (num_eq a b) : js_scope.
Notation "a + b" := (num_add a b) : js_scope.
Notation "a - b" := (num_sub a b) : js_scope.
Notation "a * b" := (num_mul a b) : js_scope.
Notation "a / b" := (num_div a b) : js_scope.

(** Exceptions: a computation returns a value or throws. *)
Inductive result (A : Type) : Type :=
| Return (a : A)
| Throw (message : string).
Arguments Return {A} a.
Arguments Throw {A} message.

Definition bind {A B} (m : result A) (k : A -> result B) : result B :=
  match m with
  | Return a => k a
  | Throw e => Throw e
  end.

Notation "x <- m ;; k" := (bind m (fun x => k))
  (at level 61, m at next level, right associativity).

(** ** JSON data and [parseFloat]

    What the upstream API delivers is parsed JSON; a metric that is absent
    from its container reads as [undefined].  Reading a property can also
    deliver a built-in function that the value inherits from its prototype
    ([JFunction], with the name of the function). *)

#[local] Unset Elimination Schemes.
Inductive jsval : Type :=
| JUndefined
| JNull
| JBool (b : bool)
| JNum (n : number)
| JStr (s : string)
| JArr (items : list jsval)
| JObj (fields : list (string * jsval))
| JFunction (name : string).
#[local] Set Elimination Schemes.

(** Truthiness of a value, as tested by [!v] and [v || w]. *)
Definition truthy (v : jsval) : bool :=
  match v with
  | JUndefined | JNull => false
  | JBool b => b
  | JNum n => num_truthy n
  | JStr s => negb (s =? "")
  | JArr _ | JObj _ | JFunction _ => true
  end.

Definition js_or (v w : jsval) : jsval := if truthy v then v else w.

(** An object is the list of its properties, in the order of the parsed
    text.  [fields] has a property named [key] of its own: *)
Definition has_own (key : string) (fields : list (string * jsval)) : bool :=
  existsb (fun field => fst field =? key) fields.

(** [fields[key]]: of a name that the text gives twice the last value
    counts; a name that is absent reads as [undefined]. *)
Fixpoint lookup (key : string) (fields : list (string * jsval)) : jsval :=
  match fields with
  | [] => JUndefined
  | (k, v) :: rest =>
      if has_own key rest then lookup key rest
      else if k =? key then v else JUndefined
  end.

(** [v.value]: reading a property of [undefined] or [null] throws a
    TypeError; an object yields its field, or [undefined] when it has
    none; booleans, numbers, strings, arrays and functions have no
    property of that name. *)
Definition prop_value (v : jsval) : result jsval :=
  match v with
  | JUndefined => Throw "TypeError: Cannot read properties of undefined"
  | JNull => Throw "TypeError: Cannot read properties of null"
  | JObj fields => Return (lookup "value" fields)
  | _ => Return JUndefined
  end.

(** White space and line terminators, as [parseFloat] and [parseInt] skip
    them.  A string is UTF-8 text.  The characters of one byte: tab, line
    feed, vertical tab, form feed, carriage return and space. *)
Definition is_white_space (c : ascii) : bool :=
  match nat_of_ascii c with
  | 9 | 10 | 11 | 12 | 13 | 32 => true
  | _ => false
  end%nat.

(** Of two bytes: the no-break space U+00A0. *)
Definition is_white_space2 (c1 c2 : ascii) : bool :=
  match nat_of_ascii c1, nat_of_ascii c2 with
  | 194, 160 => true
  | _, _ => false
  end%nat.

(** Of three bytes: U+1680, U+2000 to U+200A, the line and paragraph
    separators U+2028 and U+2029, U+202F, U+205F, U+3000 and the byte
    order mark U+FEFF. *)
Definition is_white_space3 (c1 c2 c3 : ascii) : bool :=
  match nat_of_ascii c1, nat_of_ascii c2, nat_of_ascii c3 with
  | 225, 154, 128 => true
  | 226, 128, n => ((128 <=? n) && (n <=? 138) || (n =? 168) || (n =? 169)
                    || (n =? 175))%nat
  | 226, 129, 159 => true
  | 227, 128, 128 => true
  | 239, 187, 191 => true
  | _, _, _ => false
  end%nat.

Fixpoint trim_start (s : string) : string :=
  match s with
  | String c1 rest1 =>
      if is_white_space c1 then trim_start rest1
      else
        match rest1 with
        | String c2 rest2 =>
            if is_white_space2 c1 c2 then trim_start rest2
            else
              match rest2 with
              | String c3 rest3 =>
                  if is_white_space3 c1 c2 c3 then trim_start rest3 else s
              | EmptyString => s
              end
        | EmptyString => s
        end
  | EmptyString => s
  end.

Definition digit_of (c : ascii) : option Z :=
  let n := nat_of_ascii c in
  if ((48 <=? n) && (n <=? 57))%nat then Some (Z.of_nat (n - 48)) else None.

(** Read the longest run of decimal digits at the head of [s], continuing
    the value [acc]: the value read, the number of digits and the rest. *)
Fixpoint read_digits (s : string) (acc : Z) (count : nat) : Z * nat * string :=
  match s with
  | String c rest =>
      match digit_of c with
      | Some d => read_digits rest (10 * acc + d)%Z (S count)
      | None => (acc, count, s)
      end
  | EmptyString => (acc, count, s)
  end.

(** An optional sign: [true] for a minus. *)
Definition read_sign (s : string) : bool * string :=
  match s with
  | String "-" rest => (true, rest)
  | String "+" rest => (false, rest)
  | _ => (false, s)
  end.

(** The exponent part at the head of [s], 0 when there is none or when it
    has no digit. *)
Definition read_exponent (s : string) : Z :=
  match s with
  | String c rest =>
      if ((c =? "e") || (c =? "E"))%char then
        let (negative, digits) := read_sign rest in
        let '(e, count, _) := read_digits digits 0%Z 0%nat in
        if (count =? 0)%nat then 0%Z else if negative then (- e)%Z else e
      else 0%Z
  | EmptyString => 0%Z
  end.

(** [parseFloat] on a string: the double nearest to the value of the
    longest prefix, after leading white space, that is a decimal literal
    (sign, [Infinity] or digits with an optional fraction and exponent),
    NaN when there is none. *)
Definition parseFloat_string (s : string) : number :=
  let (negative, body) := read_sign (trim_start s) in
  if prefix "Infinity" body then (if negative then NegInf else PosInf)
  else
    let '(int_part, int_count, after_int) := read_digits body 0%Z 0%nat in
    let '(mantissa, frac_count, after_frac) :=
      match after_int with
      | String "." rest => read_digits rest int_part 0%nat
      | _ => (int_part, 0%nat, after_int)
      end in
    if (int_count + frac_count =? 0)%nat then NaN
    else
      let exponent := (read_exponent after_frac - Z.of_nat frac_count)%Z in
      let magnitude := (inject_Z mantissa * Qpower (10 # 1) exponent)%Q in
      round64 (if negative then - magnitude else magnitude).

Fixpoint join (separator : string) (parts : list string) : string :=
  match parts with
  | [] => ""
  | [part] => part
  | part :: rest => part ++ separator ++ join separator rest
  end.

Section ToString.

(** The decimal rendering of a number (the shortest digits that read back
    as the same double) is left open: nothing below depends on it. *)
Variable NumberToString : number -> string.

(** [String(v)], the conversion that [parseFloat] and [parseInt] apply
    to their argument.  An array joins its elements with commas, [null]
    and [undefined] elements rendering as the empty string.  An object is
    converted by its [toString] method and then its [valueOf] method: the
    inherited [toString] answers [[object Object]], but a property of the
    parsed data named [toString] hides it and is not a function, and
    [valueOf], hidden or inherited, never answers a primitive value: the
    conversion then throws a TypeError. *)
Fixpoint ToString (v : jsval) : result string :=
  match v with
  | JUndefined => Return "undefined"
  | JNull => Return "null"
  | JBool true => Return "true"
  | JBool false => Return "false"
  | JNum n => Return (NumberToString n)
  | JStr s => Return s
  | JArr items =>
      parts <-
        (fix each (items : list jsval) : result (list string) :=
           match items with
           | [] => Return []
           | item :: rest =>
               part <-
                 match item with
                 | JUndefined | JNull => Return ""
                 | _ => ToString item
                 end ;;
               parts <- each rest ;;
               Return (part :: parts)
           end) items ;;
      Return (join "," parts)
  | JObj fields =>
      if has_own "toString" fields
      then Throw "TypeError: Cannot convert object to primitive value"
      else Return "[object Object]"
  | JFunction name => Return ("function " ++ name ++ "() { [native code] }")
  end.

Definition parseFloat (v : jsval) : result number :=
  s <- ToString v ;; Return (parseFloat_string s).

(** The helper of [getCollectionData] and [getTrendingCollections] that
    extracts the numeric value of a metric object. *)
Definition getValue (metric : jsval) : result number :=
  if negb (truthy metric) then Return (Num 0)
  else
    v <- prop_value metric ;;
    value <- parseFloat (js_or v (JStr "0")) ;;
    Return (if isNaN value then Num 0 else value).

End ToString.

(** ** detectWashTrading: severity tiers *)

Module WashTrading.

Inductive Severity := CRITICAL | HIGH | MODERATE | LOW | MINIMAL.

Definition getWashTradingSeverity (percentage : number) : Severity :=
  if (percentage >=? Num 40)%js then CRITICAL
  else if (percentage >=? Num 25)%js then HIGH
  else if (percentage >=? Num 15)%js then MODERATE
  else if (percentage >=? Num 5)%js then LOW
  else MINIMAL.

End WashTrading.

(** ** Upstream client: data records *)

Module Collection.

Record CollectionData := {
  contract_address : string;
  name : string;
  owner_count : number;
  nft_count : number;
  volume_24h : number;
  floor_price : number;
  average_price_24h : number;
  sales_24h : number;
  volume_change_24h : number;
  floor_price_change_24h : number;
  average_price_change_24h : number;
  sales_change_24h : number;
  market_cap : number;
  fully_diluted_market_cap : number
}.

Record WashTradingData := {
  wash_trading_volume : number;
  total_volume : number;
  wash_trading_percentage : number;
  wash_trading_sales : number;
  total_sales : number;
  wash_trading_wallets : number;
  wash_trading_assets : number;
  risk_score : number
}.

End Collection.
Import Collection.

(** ** analyzeCollection: safety score *)

Module AnalyzeCollection.

Inductive Recommendation := SAFE | CAUTION | HIGH_RISK.

Record Assessment := {
  safety_score : number;
  risks : list string;
  recommendation : Recommendation
}.

(** One [safetyScore -= penalty; risks.push(tag)] on the pair
    (safetyScore, risks). *)
Definition penalise (st : number * list string) (penalty : number)
    (tag : string) : number * list string :=
  ((fst st - penalty)%js, (snd st ++ [tag])%list).

(** The scoring part of the handler, from [let safetyScore = 100] to the
    choice of the recommendation.  [washTradingData] is [None] when the
    client returned null.  The three fields are reported as computed. *)
Definition analyze (collectionData : CollectionData)
    (washTradingData : option WashTradingData) : Assessment :=
  let st0 := (Num 100, @nil string) in
  (* Check holder concentration *)
  let st1 :=
    if (owner_count collectionData <? Num 100)%js then
      penalise st0 (Num 20) "low_holder_count"
    else if (owner_count collectionData <? Num 500)%js then
      penalise st0 (Num 10) "moderate_holder_count"
    else st0 in
  (* Check wash trading *)
  let wash_above (t : number) :=
    match washTradingData with
    | Some w => (wash_trading_percentage w >? t)%js
    | None => false
    end in
  let st2 :=
    if wash_above (Num 30) then
      penalise st1 (Num 30) "high_wash_trading"
    else if wash_above (Num 15) then
      penalise st1 (Num 15) "moderate_wash_trading"
    else st1 in
  (* Check volume changes *)
  let st3 :=
    if (volume_change_24h collectionData <? Num (-50))%js then
      penalise st2 (Num 15) "sharp_volume_decline"
    else st2 in
  (* Check price volatility *)
  let st4 :=
    if (Math_abs (floor_price_change_24h collectionData) >? Num 30)%js then
      penalise st3 (Num 10) "high_price_volatility"
    else st3 in
  let safetyScore := fst st4 in
  {| safety_score := safetyScore;
     risks := snd st4;
     recommendation :=
       if (safetyScore >=? Num 80)%js then SAFE
       else if (safetyScore >=? Num 60)%js then CAUTION
       else HIGH_RISK |}.

End AnalyzeCollection.

(** ** Upstream client: market metrics *)

Module Market.

Record MarketMetrics := {
  volume_24h : number;
  volume_change_24h : number;
  sales_24h : number;
  sales_change_24h : number;
  average_price : number;
  average_price_change : number;
  active_wallets : number;
  active_wallets_change : number
}.

(** The accumulator of the [reduce] in [getMarketMetrics]. *)
Record Aggregate := {
  agg_volume_24h : number;
  agg_sales_24h : number;
  agg_active_wallets : number
}.

Definition aggregate (acc : Aggregate) (collection : CollectionData) : Aggregate :=
  {| agg_volume_24h :=
       (agg_volume_24h acc + num_or (Collection.volume_24h collection) (Num 0))%js;
     agg_sales_24h :=
       (agg_sales_24h acc + num_or (Collection.sales_24h collection) (Num 0))%js;
     agg_active_wallets :=
       (agg_active_wallets acc + num_or (owner_count collection) (Num 0))%js |}.

(** [getMarketMetrics], given what [getTrendingCollections(50)] returned
    (the empty list when that request failed).  The four change fields are
    the literal 0: they are not available from the aggregation. *)
Definition getMarketMetrics (trendingCollections : list CollectionData)
    : option MarketMetrics :=
  match trendingCollections with
  | [] => None
  | _ =>
      let aggregated :=
        fold_left aggregate trendingCollections
          {| agg_volume_24h := Num 0; agg_sales_24h := Num 0;
             agg_active_wallets := Num 0 |} in
      let avgPrice :=
        if (agg_sales_24h aggregated >? Num 0)%js
        then (agg_volume_24h aggregated / agg_sales_24h aggregated)%js
        else Num 0 in
      Some {| volume_24h := agg_volume_24h aggregated;
              volume_change_24h := Num 0;
              sales_24h := agg_sales_24h aggregated;
              sales_change_24h := Num 0;
              average_price := avgPrice;
              average_price_change := Num 0;
              active_wallets :=
                Math_floor (agg_active_wallets aggregated
                            / of_nat (List.length trendingCollections))%js;
              active_wallets_change := Num 0 |}
  end.

End Market.

(** ** getMarketTrends: market sentiment *)

Module MarketTrends.
Import Market.

Inductive Sentiment := bullish | bearish | neutral.

Definition determineMarketSentiment (metrics : MarketMetrics) : Sentiment :=
  let score := Num 0 in
  (* Volume change impact *)
  let score :=
    if (volume_change_24h metrics >? Num 20)%js then (score + Num 2)%js
    else if (volume_change_24h metrics >? Num 0)%js then (score + Num 1)%js
    else if (volume_change_24h metrics <? Num (-20))%js then (score - Num 2)%js
    else if (volume_change_24h metrics <? Num 0)%js then (score - Num 1)%js
    else score in
  (* Sales change impact *)
  let score :=
    if (sales_change_24h metrics >? Num 15)%js then (score + Num 1)%js
    else if (sales_change_24h metrics <? Num (-15))%js then (score - Num 1)%js
    else score in
  (* Active wallets change *)
  let score :=
    if (active_wallets_change metrics >? Num 10)%js then (score + Num 1)%js
    else if (active_wallets_change metrics <? Num (-10))%js then (score - Num 1)%js
    else score in
  (* Price change impact *)
  let score :=
    if (average_price_change metrics >? Num 10)%js then (score + Num 1)%js
    else if (average_price_change metrics <? Num (-10))%js then (score - Num 1)%js
    else score in
  if (score >=? Num 3)%js then bullish
  else if (score <=? Num (-3))%js then bearish
  else neutral.

(** The sentiment reported by the [getMarketTrends] handler: it is
    computed from the metrics of the client, and the handler answers with
    an error payload (no sentiment) when the client has none. *)
Definition market_sentiment (trendingCollections : list CollectionData)
    : option Sentiment :=
  option_map determineMarketSentiment (getMarketMetrics trendingCollections).

End MarketTrends.

(** ** checkWalletRisk *)

Module Wallet.

Record WalletProfile := {
  address : string;
  is_whale : bool;
  is_shark : bool;
  nft_count : number;
  collection_count : number;
  total_value : number;
  realized_gains : number;
  realized_losses : number;
  washtrade_score : number
}.

End Wallet.

Module WalletRisk.
Import Wallet.

Inductive RiskLevel := HIGH | MODERATE | LOW | MINIMAL.
Inductive WalletType := regular | whale | shark.

Definition includes (tag : string) (tags : list string) : bool :=
  existsb (String.eqb tag) tags.

(** The character class [[a-fA-F0-9]]. *)
Definition is_hex (c : ascii) : bool :=
  let n := nat_of_ascii c in
  ((97 <=? n) && (n <=? 102) || (65 <=? n) && (n <=? 70)
   || (48 <=? n) && (n <=? 57))%nat.

(** [[a-fA-F0-9]{n}$]: exactly [n] characters of the class, then the end
    of the input. *)
Fixpoint hex_run (n : nat) (s : string) : bool :=
  match n, s with
  | O, EmptyString => true
  | S n', String c rest => is_hex c && hex_run n' rest
  | _, _ => false
  end.

(** [wallet_address.match(/^0x[a-fA-F0-9]{40}$/)] is not null. *)
Definition address_match (wallet_address : string) : bool :=
  match wallet_address with
  | String "0" (String "x" rest) => hex_run 40 rest
  | _ => false
  end.

Definition getRiskLevel (score : number) : RiskLevel :=
  if (score >=? Num 70)%js then HIGH
  else if (score >=? Num 40)%js then MODERATE
  else if (score >=? Num 20)%js then LOW
  else MINIMAL.

(** One [riskScore += points; redFlags.push(flag)] on the pair
    (riskScore, redFlags). *)
Definition raise (st : number * list string) (points : number)
    (flag : string) : number * list string :=
  ((fst st + points)%js, (snd st ++ [flag])%list).

Definition getWalletType (walletProfile : WalletProfile) : WalletType :=
  if is_whale walletProfile then whale
  else if is_shark walletProfile then shark
  else regular.

Definition profitLossRatio (walletProfile : WalletProfile) : number :=
  (realized_gains walletProfile
   / Math_max (realized_losses walletProfile) (Num 1))%js.

(** The risk score and the red flags, from [let riskScore = 0] to the
    last check. *)
Definition scoreWallet (walletProfile : WalletProfile) : number * list string :=
  let st := (Num 0, @nil string) in
  (* Check wash trading score *)
  let st :=
    if (washtrade_score walletProfile >? Num 50)%js then
      raise st (Num 40) "high_wash_trading_activity"
    else if (washtrade_score walletProfile >? Num 20)%js then
      raise st (Num 20) "moderate_wash_trading_activity"
    else st in
  (* Check trading patterns *)
  let st :=
    if (profitLossRatio walletProfile <? Num (1 # 2))%js
       && (realized_losses walletProfile >? Num 10000)%js then
      raise st (Num 15) "poor_trading_performance"
    else st in
  (* Check portfolio concentration *)
  let st :=
    if (collection_count walletProfile =? Num 1)%js
       && (nft_count walletProfile >? Num 10)%js then
      raise st (Num 20) "highly_concentrated_portfolio"
    else st in
  (* Check for suspicious patterns *)
  if (nft_count walletProfile =? Num 0)%js
     && (total_value walletProfile >? Num 0)%js then
    raise st (Num 15) "inconsistent_portfolio_data"
  else st.

Definition getWalletRecommendations (riskLevel : RiskLevel)
    (redFlags : list string) (walletType : WalletType) : list string :=
  (match riskLevel with
   | HIGH =>
       ["Exercise extreme caution when trading with this wallet";
        "Verify all transactions carefully before proceeding";
        "Consider avoiding direct trades with this address"]
   | MODERATE =>
       ["Proceed with caution in any transactions";
        "Verify the wallet's trading history before large trades";
        "Consider using escrow services for high-value transactions"]
   | LOW =>
       ["Standard due diligence recommended";
        "Monitor for any changes in trading patterns"]
   | MINIMAL =>
       ["This wallet appears safe for normal trading";
        "No special precautions necessary"]
   end
   ++ (if includes "high_wash_trading_activity" redFlags
       then ["Be aware of potential price manipulation in collections this wallet trades"]
       else [])
   ++ (if includes "highly_concentrated_portfolio" redFlags
       then ["Wallet may be heavily invested in a single project - consider their bias"]
       else [])
   ++ (match walletType with
       | whale => ["Monitor this whale's movements as they can impact market prices"]
       | _ => []
       end))%list.

(** The result object of the handler.  Its [metrics] block repeats the
    fields of the profile and is read off [profile]; the generated
    [analysis] sentence is left out. *)
Record Report := {
  wallet_address : string;
  blockchain : string;
  risk_score : number;
  risk_level : RiskLevel;
  wallet_type : WalletType;
  profile : WalletProfile;
  red_flags : list string;
  recommendations : list string;
  holdings_summary : bool
}.

Inductive Payload :=
| InvalidAddress (wallet_address : string)
| ProfileUnavailable (wallet_address blockchain : string)
| RiskReport (report : Report)
| Failure (message wallet_address blockchain : string).

(** The [error] field of a payload, absent from a risk report. *)
Definition error (p : Payload) : option string :=
  match p with
  | InvalidAddress _ => Some "Invalid wallet address format"
  | ProfileUnavailable _ _ => Some "Unable to fetch wallet profile"
  | Failure _ _ _ => Some "Failed to check wallet risk"
  | RiskReport _ => None
  end.

(** What the handler returns: the payload it serialises, and the
    [isError] mark that only the [catch] branch sets. *)
Record Response := {
  payload : Payload;
  isError : bool
}.

(** Requests made to the upstream collaborator. *)
Inductive UpstreamCall :=
| GetWalletProfile (address blockchain : string).

(** A handler runs against a log of the upstream requests made so far. *)
Definition IO (A : Type) : Type := list UpstreamCall -> A * list UpstreamCall.

Definition ret {A} (a : A) : IO A := fun log => (a, log).

Definition andThen {A B} (m : IO A) (k : A -> IO B) : IO B :=
  fun log => let (a, log') := m log in k a log'.

(** The collaborator: what a request for a wallet profile answers (null
    is [None]), or the exception it raises. *)
Definition Client : Type := string -> string -> result (option WalletProfile).

Definition getWalletProfile (client : Client) (address blockchain : string)
    : IO (result (option WalletProfile)) :=
  fun log =>
    (client address blockchain, (log ++ [GetWalletProfile address blockchain])%list).

(** The body of the handler, from its [try] on, for a constructed
    [client]. *)
Definition checkWalletRisk (client : Client) (wallet_address : string)
    (include_holdings : bool) (blockchain : string) : IO Response :=
  (* Validate wallet address format *)
  if negb (address_match wallet_address) then
    ret {| payload := InvalidAddress wallet_address; isError := false |}
  else
    (* Fetch wallet profile *)
    andThen (getWalletProfile client wallet_address blockchain) (fun fetched =>
    match fetched with
    | Throw message =>
        ret {| payload := Failure message wallet_address blockchain;
               isError := true |}
    | Return None =>
        ret {| payload := ProfileUnavailable wallet_address blockchain;
               isError := false |}
    | Return (Some walletProfile) =>
        let walletType := getWalletType walletProfile in
        let (riskScore, redFlags) := scoreWallet walletProfile in
        let riskLevel := getRiskLevel riskScore in
        ret {| payload :=
                 RiskReport
                   {| wallet_address := wallet_address;
                      blockchain := blockchain;
                      risk_score := riskScore;
                      risk_level := riskLevel;
                      wallet_type := walletType;
                      profile := walletProfile;
                      red_flags := redFlags;
                      recommendations :=
                        getWalletRecommendations riskLevel redFlags walletType;
                      holdings_summary :=
                        include_holdings
                        && (nft_count walletProfile >? Num 0)%js |};
               isError := false |}
    end).

End WalletRisk.

(** ** getInvestmentAdvice: scoring, ranking and allocation *)

(** [Array.prototype.sort] with a comparator.  The sort is stable; for a
    comparator that orders its arguments consistently the result is the
    stable arrangement, obtained here by insertion: an element moves
    behind those that the comparator puts strictly before it. *)
Section ArraySort.

Context {A : Type} (compare : A -> A -> number).

Fixpoint insert (x : A) (sorted : list A) : list A :=
  match sorted with
  | [] => [x]
  | y :: rest =>
      if (compare x y >? Num 0)%js then y :: insert x rest
      else x :: sorted
  end.

Definition Array_sort (items : list A) : list A :=
  fold_right insert [] items.

End ArraySort.

(** [x.toFixed(0)]: the nearest integer to the magnitude, the larger one
    on a tie, in decimal digits. *)
Definition toFixed0 (x : number) : string :=
  match x with
  | NaN => "NaN"
  | PosInf => "Infinity"
  | NegInf => "-Infinity"
  | Num q =>
      let digits (m : Q) :=
        NilZero.string_of_uint (N.to_uint (Z.to_N (Qfloor (m + (1 # 2))))) in
      if Qltb q 0 then "-" ++ digits (- q)%Q else digits q
  end.

Module InvestmentAdvice.

Inductive RiskLevel := LOW | MEDIUM | HIGH.

Record Metrics := {
  holders : number;
  volume_24h : number;
  volume_change : number;
  floor_change : number;
  sales_24h : number
}.

Record Scored := {
  collection : string;
  address : string;
  score : number;
  floor_price : number;
  factors : list string;
  metrics : Metrics
}.

Definition includes (tag : string) (tags : list string) : bool :=
  existsb (String.eqb tag) tags.

(** One [score += points; factors.push(factor)] on the pair
    (score, factors). *)
Definition award (st : number * list string) (points : number)
    (factor : string) : number * list string :=
  ((fst st + points)%js, (snd st ++ [factor])%list).

(** The body of the loop of [scoreCollections] for a collection that is
    not skipped. *)
Definition scoreCollection (riskTolerance horizon : string)
    (c : CollectionData) : Scored :=
  let conservative := (riskTolerance =? "conservative") in
  let st := (Num 0, @nil string) in
  (* Holder count factor *)
  let st :=
    if (owner_count c >? Num 5000)%js then
      award st (if conservative then Num 30 else Num 20) "strong_community"
    else if (owner_count c >? Num 2000)%js then
      award st (Num 15) "growing_community"
    else st in
  (* Volume trend factor *)
  let st :=
    if (Collection.volume_change_24h c >? Num 20)%js && negb conservative then
      award st (Num 20) "high_momentum"
    else if (Collection.volume_change_24h c >? Num 0)%js then
      award st (Num 10) "positive_momentum"
    else st in
  (* Price stability factor *)
  let st :=
    if (Math_abs (floor_price_change_24h c) <? Num 10)%js then
      award st (if conservative then Num 25 else Num 15) "price_stability"
    else st in
  (* Liquidity factor *)
  let st :=
    if (Collection.sales_24h c >? Num 100)%js then
      award st (Num 20) "high_liquidity"
    else if (Collection.sales_24h c >? Num 50)%js then
      award st (Num 10) "moderate_liquidity"
    else st in
  (* Time horizon adjustments *)
  let st :=
    if (horizon =? "long") && (owner_count c >? Num 3000)%js then
      award st (Num 15) "long_term_potential"
    else if (horizon =? "short")
            && (Collection.volume_change_24h c >? Num 30)%js then
      award st (Num 15) "short_term_opportunity"
    else st in
  {| collection := name c;
     address := contract_address c;
     score := fst st;
     floor_price := Collection.floor_price c;
     factors := snd st;
     metrics :=
       {| holders := owner_count c;
          volume_24h := Collection.volume_24h c;
          volume_change := Collection.volume_change_24h c;
          floor_change := floor_price_change_24h c;
          sales_24h := Collection.sales_24h c |} |}.

(** The loop of [scoreCollections]: a collection whose floor price
    exceeds the budget is skipped ([continue]), the others are scored and
    pushed. *)
Definition scoreEach (riskTolerance horizon : string) (budget : number)
    (scored : list Scored) (c : CollectionData) : list Scored :=
  if (Collection.floor_price c >? budget)%js then scored
  else (scored ++ [scoreCollection riskTolerance horizon c])%list.

Definition scoreCollections (collections : list CollectionData)
    (riskTolerance horizon : string) (budget : number) : list Scored :=
  Array_sort (fun a b => (score b - score a)%js)
    (fold_left (scoreEach riskTolerance horizon budget) collections []).

Definition getRiskLevel (c : Scored) (riskTolerance : string) : RiskLevel :=
  if includes "price_stability" (factors c)
     && includes "strong_community" (factors c) then LOW
  else if includes "high_momentum" (factors c)
          && negb (includes "strong_community" (factors c)) then HIGH
  else MEDIUM.

Definition generateExpectedReturn (c : Scored) (horizon : string) : string :=
  if horizon =? "short" then
    if (volume_change (metrics c) >? Num 30)%js then "10-20%" else "5-10%"
  else if horizon =? "medium" then
    if (holders (metrics c) >? Num 5000)%js then "20-50%" else "10-30%"
  else
    if (holders (metrics c) >? Num 5000)%js then "50-200%" else "30-100%".

(** A recommendation; the generated [reasoning] sentence is left out. *)
Record Recommendation := {
  rec_collection : string;
  allocation : string;
  budget_allocation : number;
  recommended_quantity : number;
  entry_price : number;
  risk_level : RiskLevel;
  expected_return : string;
  key_factors : list string
}.

Definition maxPositions (budget : number) (riskTolerance : string) : nat :=
  let conservative := (riskTolerance =? "conservative") in
  if (budget <? Num 1000)%js then 1
  else if (budget <? Num 5000)%js then (if conservative then 2 else 3)
  else if (budget <? Num 20000)%js then (if conservative then 3 else 5)
  else (if conservative then 5 else 8).

Definition allocationStrategy (riskTolerance : string) : list number :=
  if riskTolerance =? "conservative" then
    [double 0.4; double 0.3; double 0.2; double 0.1]
  else if riskTolerance =? "moderate" then
    [double 0.35; double 0.25; double 0.2; double 0.15; double 0.05]
  else
    [double 0.3; double 0.25; double 0.2; double 0.15; double 0.1].

(** [allocationStrategy[i] || 0.1]: reading past the end of the array
    gives [undefined]. *)
Definition allocationAt (allocationStrategy : list number) (i : nat) : number :=
  match nth_error allocationStrategy i with
  | Some a => num_or a (double 0.1)
  | None => double 0.1
  end.

Definition recommend (c : Scored) (allocation_ allocatedBudget : number)
    (riskTolerance horizon : string) : Recommendation :=
  {| rec_collection := collection c;
     allocation := toFixed0 (allocation_ * Num 100)%js ++ "%";
     budget_allocation := allocatedBudget;
     recommended_quantity := Math_floor (allocatedBudget / floor_price c)%js;
     entry_price := floor_price c;
     risk_level := getRiskLevel c riskTolerance;
     expected_return := generateExpectedReturn c horizon;
     key_factors := factors c |}.

(** One iteration of the loop of [generatePortfolioRecommendations], on
    the pair (recommendations, remainingBudget). *)
Definition allocate (scoredCollections : list Scored) (budget : number)
    (riskTolerance horizon : string)
    (st : list Recommendation * number) (i : nat)
    : list Recommendation * number :=
  match nth_error scoredCollections i with
  | None => st
  | Some c =>
      let allocation_ := allocationAt (allocationStrategy riskTolerance) i in
      let allocatedBudget := (budget * allocation_)%js in
      if (floor_price c <=? allocatedBudget)%js then
        ((fst st ++ [recommend c allocation_ allocatedBudget riskTolerance horizon])%list,
         (snd st - allocatedBudget)%js)
      else st
  end.

Definition generatePortfolioRecommendations (scoredCollections : list Scored)
    (budget : number) (riskTolerance horizon : string) : list Recommendation :=
  fst (fold_left (allocate scoredCollections budget riskTolerance horizon)
         (seq 0 (Nat.min (List.length scoredCollections)
                         (maxPositions budget riskTolerance)))
         ([], budget)).

Record PortfolioMetrics := {
  total_positions : number;
  total_allocated : number;
  average_position_size : number;
  diversification_score : number;
  risk_score : RiskLevel;
  expected_return_range : string
}.

Definition calculatePortfolioMetrics (recommendations : list Recommendation)
    (riskTolerance : string) : PortfolioMetrics :=
  let totalAllocated :=
    fold_left (fun sum r => (sum + budget_allocation r)%js)
      recommendations (Num 0) in
  let length_ := of_nat (List.length recommendations) in
  let avgRisk :=
    (of_nat (List.length
               (filter (fun r => match risk_level r with HIGH => true | _ => false end)
                  recommendations))
     / length_)%js in
  {| total_positions := length_;
     total_allocated := totalAllocated;
     average_position_size := (totalAllocated / length_)%js;
     diversification_score := Math_min (length_ * Num 20)%js (Num 100);
     risk_score :=
       if (avgRisk >? double 0.5)%js then HIGH
       else if (avgRisk >? double 0.2)%js then MEDIUM
       else LOW;
     expected_return_range :=
       if riskTolerance =? "conservative" then "10-30%"
       else if riskTolerance =? "moderate" then "20-50%"
       else "30-100%" |}.

(** The pipeline of the handler once the inputs are validated and the
    trending collections fetched: score, recommend, measure. *)
Definition advise (trendingCollections : list CollectionData)
    (budget : number) (riskTolerance horizon : string)
    : list Recommendation * PortfolioMetrics :=
  let scoredCollections :=
    scoreCollections trendingCollections riskTolerance horizon budget in
  let recommendations :=
    generatePortfolioRecommendations scoredCollections budget
      riskTolerance horizon in
  (recommendations, calculatePortfolioMetrics recommendations riskTolerance).

End InvestmentAdvice.

(** * Further code of the handlers

    ** Number formatting *)

(** [array.push(x)]. *)
Definition push {A : Type} (array : list A) (x : A) : list A :=
  (array ++ [x])%list.

Definition natToString (n : nat) : string :=
  NilZero.string_of_uint (Nat.to_uint n).

Fixpoint zeros (n : nat) : string :=
  match n with
  | O => ""
  | S n' => String "0" (zeros n')
  end.

(** The digits of a whole number with a decimal point before the last
    [fractionDigits] of them, zero-padded so that a digit stands before
    the point. *)
Definition pointed (fractionDigits : nat) (digits : string) : string :=
  match fractionDigits with
  | O => digits
  | _ =>
      let k := String.length digits in
      let padded :=
        if (k <=? fractionDigits)%nat
        then zeros (fractionDigits + 1 - k) ++ digits
        else digits in
      let whole := (String.length padded - fractionDigits)%nat in
      substring 0 whole padded ++ "." ++ substring whole fractionDigits padded
  end.

Section Formatting.

Variable NumberToString : number -> string.

(** [x.toFixed(fractionDigits)]: the sign, then the integer nearest to the
    magnitude times 10^fractionDigits (the larger one on a tie) written
    with the decimal point; a magnitude of 10^21 or more is written as
    [String] writes it. *)
Definition toFixed (fractionDigits : nat) (x : number) : string :=
  match x with
  | NaN => "NaN"
  | PosInf => "Infinity"
  | NegInf => "-Infinity"
  | Num q =>
      let sign := if Qltb q 0 then "-" else "" in
      let magnitude := Qabs q in
      if Qle_bool (Qpower (10 # 1) 21) magnitude then
        sign ++ NumberToString (Num (Qred magnitude))
      else
        let n :=
          Qfloor (magnitude * Qpower (10 # 1) (Z.of_nat fractionDigits) + (1 # 2)) in
        sign ++ pointed fractionDigits
                  (NilZero.string_of_uint (N.to_uint (Z.to_N n)))
  end.

End Formatting.

(** ** getMarketTrends: insights and opportunities *)

Module MarketTrendsTool.
Import Market MarketTrends.

Record Trending := {
  name : string;
  address : string;
  volume_change : number;
  floor_change : number;
  volume_24h : number;
  floor_price : number;
  holders : number
}.

(** [trendingCollections.slice(0, 5).map(...)]. *)
Definition formatTrending (trendingCollections : list CollectionData)
    : list Trending :=
  map (fun c =>
         {| name := Collection.name c;
            address := contract_address c;
            volume_change := Collection.volume_change_24h c;
            floor_change := floor_price_change_24h c;
            volume_24h := Collection.volume_24h c;
            floor_price := Collection.floor_price c;
            holders := owner_count c |})
      (firstn 5 trendingCollections).

Definition sentimentName (s : Sentiment) : string :=
  match s with
  | bullish => "bullish"
  | bearish => "bearish"
  | neutral => "neutral"
  end.

Section WithNumberToString.

Variable NumberToString : number -> string.

Definition generateMarketInsights (metrics : MarketMetrics)
    (trending : list CollectionData) (sentiment : Sentiment) : list string :=
  let insights := @nil string in
  (* Volume insights *)
  let insights :=
    if (Math_abs (volume_change_24h metrics) >? Num 30)%js then
      push insights
        (if (volume_change_24h metrics >? Num 0)%js
        then "Significant volume surge of "
             ++ toFixed NumberToString 1 (volume_change_24h metrics)
             ++ "% indicates increased market activity"
        else "Volume decline of "
             ++ toFixed NumberToString 1 (Math_abs (volume_change_24h metrics))
             ++ "% suggests reduced trading interest")
    else insights in
  (* Active trader insights *)
  let insights :=
    if (Math_abs (active_wallets_change metrics) >? Num 20)%js then
      push insights
        (if (active_wallets_change metrics >? Num 0)%js
        then toFixed NumberToString 1 (active_wallets_change metrics)
             ++ "% increase in active traders shows growing market participation"
        else toFixed NumberToString 1 (Math_abs (active_wallets_change metrics))
             ++ "% decrease in active traders indicates market cooling")
    else insights in
  (* Price trend insights *)
  let insights :=
    if (average_price_change metrics >? Num 15)%js then
      push insights
        ("Rising average prices across the market suggest strong buying pressure")
    else if (average_price_change metrics <? Num (-15))%js then
      push insights
        ("Declining average prices indicate selling pressure or market correction")
    else insights in
  (* Trending collection insights *)
  let highGrowth :=
    filter (fun c => (Collection.volume_change_24h c >? Num 50)%js) trending in
  let insights :=
    if (of_nat (List.length highGrowth) >? Num 0)%js then
      push insights
        (natToString (List.length highGrowth)
        ++ " collections showing explosive growth (>50% volume increase)")
    else insights in
  (* Market sentiment summary *)
  match sentiment with
  | bullish =>
      push insights
        ("Overall market sentiment is bullish with multiple positive indicators")
  | bearish =>
      push insights
        ("Market sentiment is bearish - consider defensive strategies")
  | neutral =>
      push insights
        ("Market showing mixed signals - selective opportunities may exist")
  end.

End WithNumberToString.

Definition identifyOpportunities (trending : list CollectionData)
    (metrics : MarketMetrics) : list string :=
  let opportunities := @nil string in
  (* Look for undervalued collections *)
  let undervalued :=
    filter (fun c => (Collection.volume_change_24h c >? Num 20)%js
                     && (floor_price_change_24h c <? Num 5)%js
                     && (owner_count c >? Num 1000)%js) trending in
  let opportunities :=
    match undervalued with
    | first :: _ =>
        push opportunities
        (Collection.name first
          ++ " showing strong volume growth without price appreciation - potential entry opportunity")
    | [] => opportunities
    end in
  (* High holder growth *)
  let growingCommunity :=
    filter (fun c => (owner_count c >? Num 2000)%js
                     && (Collection.floor_price c <? average_price metrics)%js)
      trending in
  let opportunities :=
    match growingCommunity with
    | _ :: _ =>
        push opportunities
        ("Collections with growing holder bases below market average price present value opportunities")
    | [] => opportunities
    end in
  (* Market timing *)
  let opportunities :=
    if (volume_change_24h metrics <? Num (-20))%js
       && (average_price_change metrics <? Num (-15))%js then
      push opportunities
        ("Market downturn may present buying opportunities for quality collections")
    else if (volume_change_24h metrics >? Num 30)%js
            && (active_wallets_change metrics >? Num 20)%js then
      push opportunities
        ("Strong market momentum - consider taking profits on overextended positions")
    else opportunities in
  (* General advice *)
  match opportunities with
  | [] =>
      ["Market conditions suggest patience and selective positioning";
       "Focus on collections with strong fundamentals and growing communities"]
  | _ => opportunities
  end.

End MarketTrendsTool.

(** ** getInvestmentAdvice: market condition, advice texts and handler *)

(** A computation that logs the requests it makes to a collaborator. *)
Definition Logged (Call A : Type) : Type := list Call -> A * list Call.

Module AdviceTool.
Import Market InvestmentAdvice.

Record MarketCondition := {
  sentiment : string;
  volume_trend : string;
  price_trend : string;
  activity_level : string;
  description : string
}.

Section WithNumberToString.

Variable NumberToString : number -> string.

Definition generateMarketDescription (sentiment_ : string)
    (metrics : MarketMetrics) : string :=
  if sentiment_ =? "bullish" then
    "Market showing strong momentum with "
    ++ toFixed NumberToString 1 (volume_change_24h metrics)
    ++ "% volume increase and growing trader participation."
  else if sentiment_ =? "bearish" then
    "Market experiencing downturn with "
    ++ toFixed NumberToString 1 (Math_abs (volume_change_24h metrics))
    ++ "% volume decline. Caution advised."
  else
    "Market showing mixed signals. Selective opportunities available for careful investors.".

Definition analyzeMarketCondition (metrics : MarketMetrics) : MarketCondition :=
  let sentiment_ :=
    if (volume_change_24h metrics >? Num 10)%js
       && (sales_change_24h metrics >? Num 5)%js then "bullish"
    else if (volume_change_24h metrics <? Num (-10))%js
            && (sales_change_24h metrics <? Num (-5))%js then "bearish"
    else "neutral" in
  {| sentiment := sentiment_;
     volume_trend :=
       if (volume_change_24h metrics >? Num 0)%js then "increasing" else "decreasing";
     price_trend :=
       if (average_price_change metrics >? Num 0)%js then "rising" else "falling";
     activity_level :=
       if (active_wallets metrics >? Num 10000)%js then "high"
       else if (active_wallets metrics >? Num 5000)%js then "moderate"
       else "low";
     description := generateMarketDescription sentiment_ metrics |}.

End WithNumberToString.

Definition generateWarnings (marketCondition : MarketCondition)
    (riskTolerance : string) (budget : number) : list string :=
  let warnings := @nil string in
  let warnings :=
    if (sentiment marketCondition =? "bearish")
       && (riskTolerance =? "conservative") then
      push warnings
        "Market conditions are challenging for conservative investors - consider waiting"
    else warnings in
  let warnings :=
    if (budget <? Num 500)%js then
      push warnings
        "Limited budget restricts diversification - higher concentration risk"
    else warnings in
  let warnings :=
    if activity_level marketCondition =? "low" then
      push warnings
        "Low market activity may impact ability to exit positions quickly"
    else warnings in
  let warnings :=
    push warnings
      "NFT investments are highly speculative - only invest what you can afford to lose" in
  push warnings "Past performance does not guarantee future results".

Definition generateInvestmentStrategy (riskTolerance horizon : string)
    (marketCondition : MarketCondition) : string :=
  if riskTolerance =? "conservative" then
    "Focus on established collections with strong communities and stable pricing. "
    ++ "Avoid new launches and high-volatility assets. "
    ++ (if horizon =? "long"
        then "Hold through market cycles for best results."
        else "Take profits at 20-30% gains.")
  else if riskTolerance =? "moderate" then
    "Balance between blue-chip NFTs and emerging collections with potential. "
    ++ "Monitor market trends and rebalance quarterly. "
    ++ "Set stop-losses at -20% to manage downside risk."
  else
    "Pursue high-growth opportunities in trending collections. "
    ++ "Be prepared for significant volatility. "
    ++ "Use profits from winners to explore new opportunities.".

Definition generateDiversificationAdvice
    (recommendations : list Recommendation) (budget : number) : string :=
  let n := List.length recommendations in
  if (n =? 1)%nat then
    "Limited budget allows only single position - consider saving for better diversification."
  else if (n <? 3)%nat then
    "Minimal diversification achieved. Monitor positions closely and avoid overconcentration."
  else if (n <? 5)%nat then
    "Moderate diversification across collections. Good balance of risk and opportunity."
  else
    "Well-diversified portfolio reduces single-collection risk. Rebalance periodically.".

Definition generateExitStrategy (riskTolerance horizon : string) : string :=
  if horizon =? "short" then
    "Take profits at 20-30% gains. Cut losses at -15%. Monitor daily for exit opportunities."
  else if horizon =? "medium" then
    "Target 50-100% returns. Use trailing stops to protect gains. Reassess monthly."
  else
    "Hold quality collections through cycles. Only sell if fundamentals deteriorate. Review quarterly.".

(** The result object of the handler. *)
Record Advice := {
  budget : number;
  risk_tolerance : string;
  investment_horizon : string;
  market_conditions : MarketCondition;
  recommendations : list Recommendation;
  portfolio_metrics : PortfolioMetrics;
  investment_strategy : string;
  warnings : list string;
  diversification_advice : string;
  exit_strategy : string
}.

(** The payloads of the handler.  [Failure] is the payload of the [catch]
    branch; its message, the one of the request that failed first, is
    left out. *)
Inductive Payload :=
| InvalidRiskTolerance (provided : string)
| InvalidHorizon (provided : string)
| MarketDataUnavailable
| Advised (advice : Advice)
| Failure.

Definition error (p : Payload) : option string :=
  match p with
  | InvalidRiskTolerance _ =>
      Some "Invalid risk tolerance. Must be: conservative, moderate, or aggressive"
  | InvalidHorizon _ =>
      Some "Invalid investment horizon. Must be: short, medium, or long"
  | MarketDataUnavailable => Some "Unable to fetch market data for analysis"
  | Failure => Some "Failed to generate investment advice"
  | Advised _ => None
  end.

Record Response := {
  payload : Payload;
  isError : bool
}.

(** Requests made to the client. *)
Inductive UpstreamCall :=
| GetMarketMetrics (timeRange : string)
| GetTrendingCollections (limit : nat).

(** The client as the handler uses it: what each of its two methods
    answers (null is [None]), or the exception it raises. *)
Record Client := {
  getMarketMetrics : string -> result (option MarketMetrics);
  getTrendingCollections : nat -> result (option (list CollectionData))
}.

(** The client of the repository, given what the upstream API answers to
    the request for the trending collections with each limit: its market
    metrics are aggregated from the 50 first trending collections. *)
Definition aggregatingClient (trending : nat -> list CollectionData) : Client :=
  {| getMarketMetrics := fun _ => Return (Market.getMarketMetrics (trending 50%nat));
     getTrendingCollections := fun limit => Return (Some (trending limit)) |}.

Section Handler.

Variable NumberToString : number -> string.

(** The body of the handler, from its [try] on, for a constructed
    [client].  The two requests of [Promise.all] are both started, the
    market metrics first, before either answer is looked at. *)
Definition getInvestmentAdvice (client : Client) (budget_ : number)
    (risk_tolerance_ investment_horizon_ : string)
    : Logged UpstreamCall Response :=
  fun log =>
    (* Validate inputs *)
    if negb (includes risk_tolerance_ ["conservative"; "moderate"; "aggressive"]) then
      ({| payload := InvalidRiskTolerance risk_tolerance_; isError := false |}, log)
    else if negb (includes investment_horizon_ ["short"; "medium"; "long"]) then
      ({| payload := InvalidHorizon investment_horizon_; isError := false |}, log)
    else
      (* Fetch market data *)
      let log' :=
        (log ++ [GetMarketMetrics "24h"; GetTrendingCollections 20])%list in
      match getMarketMetrics client "24h", getTrendingCollections client 20%nat with
      | Return (Some marketMetrics), Return (Some trendingCollections) =>
          let marketCondition := analyzeMarketCondition NumberToString marketMetrics in
          let scoredCollections :=
            scoreCollections trendingCollections risk_tolerance_
              investment_horizon_ budget_ in
          let recommendations_ :=
            generatePortfolioRecommendations scoredCollections budget_
              risk_tolerance_ investment_horizon_ in
          let portfolioMetrics :=
            calculatePortfolioMetrics recommendations_ risk_tolerance_ in
          let warnings_ := generateWarnings marketCondition risk_tolerance_ budget_ in
          ({| payload :=
                Advised
                  {| budget := budget_;
                     risk_tolerance := risk_tolerance_;
                     investment_horizon := investment_horizon_;
                     market_conditions := marketCondition;
                     recommendations := recommendations_;
                     portfolio_metrics := portfolioMetrics;
                     investment_strategy :=
                       generateInvestmentStrategy risk_tolerance_
                         investment_horizon_ marketCondition;
                     warnings := warnings_;
                     diversification_advice :=
                       generateDiversificationAdvice recommendations_ budget_;
                     exit_strategy :=
                       generateExitStrategy risk_tolerance_ investment_horizon_ |};
              isError := false |}, log')
      | Return _, Return _ =>
          ({| payload := MarketDataUnavailable; isError := false |}, log')
      | _, _ => ({| payload := Failure; isError := true |}, log')
      end.

End Handler.

End AdviceTool.

(** ** Upstream client: requests and normalisation *)

Module UnleashClient.

(** [s.toLowerCase()] on the ASCII letters; the names the client looks up
    are ASCII and no other character lower-cases to one of their
    letters. *)
Definition lowerChar (c : ascii) : ascii :=
  let n := nat_of_ascii c in
  if ((65 <=? n) && (n <=? 90))%nat then ascii_of_nat (n + 32) else c.

Fixpoint toLowerCase (s : string) : string :=
  match s with
  | EmptyString => EmptyString
  | String c rest => String (lowerChar c) (toLowerCase rest)
  end.

(** What [blockchainMap[key] || '1'] evaluates to: an identifier of the
    map, or, for the two lower-case names that every object inherits
    ([constructor] and [__proto__]), the inherited value. *)
Inductive BlockchainId :=
| ChainId (id : string)
| Inherited (property : string).

Definition getBlockchainId (blockchain : string) : BlockchainId :=
  let key := toLowerCase blockchain in
  if key =? "ethereum" then ChainId "1"
  else if key =? "polygon" then ChainId "137"
  else if key =? "bsc" then ChainId "56"
  else if key =? "arbitrum" then ChainId "42161"
  else if key =? "optimism" then ChainId "10"
  else if (key =? "constructor") || (key =? "__proto__") then Inherited key
  else ChainId "1".

(** [v[key]] for the keys the client reads.  None of them is an array
    index, and two of them are names defined by a prototype: [length], on
    arrays, strings and functions, and [values], which an array inherits
    ([Array.prototype.values], a function of no parameter).  The length of
    a string is counted in bytes; the client only tests whether it is
    positive, which it is exactly when the string is not empty. *)
Definition get (v : jsval) (key : string) : result jsval :=
  match v with
  | JUndefined => Throw "TypeError: Cannot read properties of undefined"
  | JNull => Throw "TypeError: Cannot read properties of null"
  | JObj fields => Return (lookup key fields)
  | JArr items =>
      Return (if key =? "length" then JNum (of_nat (List.length items))
              else if key =? "values" then JFunction "values"
              else JUndefined)
  | JStr s =>
      Return (if key =? "length" then JNum (of_nat (String.length s))
              else JUndefined)
  | JFunction _ =>
      Return (if key =? "length" then JNum (Num 0) else JUndefined)
  | JBool _ | JNum _ => Return JUndefined
  end.

(** [v?.value]. *)
Definition optional_value (v : jsval) : result jsval :=
  match v with
  | JUndefined | JNull => Return JUndefined
  | _ => get v "value"
  end.

(** [v !== "NA" && v !== null]. *)
Definition is_available (v : jsval) : bool :=
  match v with
  | JStr s => negb (s =? "NA")
  | JNull => false
  | _ => true
  end.

(** [array.find(callback)] with a callback that may throw. *)
Fixpoint find (callback : jsval -> result jsval) (items : list jsval)
    : result jsval :=
  match items with
  | [] => Return JUndefined
  | item :: rest =>
      r <- callback item ;;
      if truthy r then Return item else find callback rest
  end.

Definition hex_digit_of (c : ascii) : option Z :=
  let n := nat_of_ascii c in
  if ((48 <=? n) && (n <=? 57))%nat then Some (Z.of_nat (n - 48))
  else if ((97 <=? n) && (n <=? 102))%nat then Some (Z.of_nat (n - 87))
  else if ((65 <=? n) && (n <=? 70))%nat then Some (Z.of_nat (n - 55))
  else None.

Fixpoint read_hex_digits (s : string) (acc : Z) (count : nat) : Z * nat * string :=
  match s with
  | String c rest =>
      match hex_digit_of c with
      | Some d => read_hex_digits rest (16 * acc + d)%Z (S count)
      | None => (acc, count, s)
      end
  | EmptyString => (acc, count, s)
  end.

(** [parseInt] on a string, without a radix: after leading white space
    and a sign, the double nearest to the longest run of digits,
    hexadecimal after [0x] and decimal otherwise; NaN when there is no
    digit. *)
Definition parseInt_string (s : string) : number :=
  let (negative, body) := read_sign (trim_start s) in
  let '(value, count, _) :=
    match body with
    | String "0" (String c rest) =>
        if ((c =? "x") || (c =? "X"))%char then read_hex_digits rest 0%Z 0%nat
        else read_digits body 0%Z 0%nat
    | _ => read_digits body 0%Z 0%nat
    end in
  if (count =? 0)%nat then NaN
  else round64 (inject_Z (if negative then (- value)%Z else value)).

(** What [getCollectionWashTrading] returns.  [risk_score] is copied from
    the upstream data as it is; [note] is the field that tells the three
    shapes apart ([date], [summary] or [message]). *)
Inductive Note :=
| Date (date : jsval)
| Summary
| Message.

Record WashTrading := {
  wash_trading_volume : number;
  total_volume : number;
  wash_trading_percentage : number;
  wash_trading_sales : number;
  total_sales : number;
  wash_trading_wallets : number;
  wash_trading_assets : number;
  risk_score : jsval;
  note : Note
}.

(** The collection response, taken well-typed: a name that is a string
    and a count that is a number, each possibly absent. *)
Record CollectionInfo := {
  info_name : option string;
  info_nft_count : option number
}.

Section Requests.

Variable NumberToString : number -> string.
(** The conversion of a string to a number, used only where the upstream
    data gives [length] as a string; it is left open. *)
Variable StringToNumber : string -> number.

Definition parseInt (v : jsval) : result number :=
  s <- ToString NumberToString v ;; Return (parseInt_string s).

(** [v > 0]: a string, and an array, an object or a function through its
    conversion to a string, is compared as the number it converts to. *)
Definition positive (v : jsval) : result bool :=
  match v with
  | JUndefined => Return false
  | JNull => Return false
  | JBool b => Return b
  | JNum n => Return (n >? Num 0)%js
  | _ =>
      s <- ToString NumberToString v ;;
      Return (StringToNumber s >? Num 0)%js
  end.

(** The callback of [find]: a data point with values whose wash-trade
    volume is neither "NA" nor null. *)
Definition hasVolume (point : jsval) : result jsval :=
  values <- get point "values" ;;
  if truthy values then
    volume <- get values "washtrade_volume" ;;
    Return (JBool (is_available volume))
  else Return values.

(** The body of the [try] of [getCollectionWashTrading], on the data of
    the response. *)
Definition washTradingOf (data : jsval) : result WashTrading :=
  data_points <- get data "data_points" ;;
  latest <-
    (if truthy data_points then
       length_ <- get data_points "length" ;;
       nonempty <- positive length_ ;;
       if nonempty then
         latestData <-
           match data_points with
           | JArr items => find hasVolume items
           | _ => Throw "TypeError: data.data_points.find is not a function"
           end ;;
         if truthy latestData then
           values <- get latestData "values" ;;
           Return (if truthy values then Some (latestData, values) else None)
         else Return None
       else Return None
     else Return None) ;;
  match latest with
  | Some (latestData, values) =>
      volume <- get values "washtrade_volume" ;;
      washtrade_volume <- parseFloat NumberToString (js_or volume (JStr "0")) ;;
      sales <- get values "washtrade_suspect_sales" ;;
      washtrade_sales <- parseInt (js_or sales (JStr "0")) ;;
      wallets <- get values "washtrade_wallets" ;;
      washtrade_wallets <- parseInt (js_or wallets (JStr "0")) ;;
      assets <- get values "washtrade_assets" ;;
      washtrade_assets <- parseInt (js_or assets (JStr "0")) ;;
      change <- get values "washtrade_suspect_sales_change" ;;
      date <- get latestData "date" ;;
      Return {| wash_trading_volume := washtrade_volume;
                total_volume := Num 0;
                wash_trading_percentage := Num 0;
                wash_trading_sales := washtrade_sales;
                total_sales := Num 0;
                wash_trading_wallets := washtrade_wallets;
                wash_trading_assets := washtrade_assets;
                risk_score := js_or change (JNum (Num 0));
                note := Date date |}
  | None =>
      metrics <- get data "metrics" ;;
      if truthy metrics then
        volume <- (m <- get metrics "washtrade_volume" ;; optional_value m) ;;
        washtrade_volume <- parseFloat NumberToString (js_or volume (JStr "0")) ;;
        sales <- (m <- get metrics "washtrade_suspect_sales" ;; optional_value m) ;;
        washtrade_sales <- parseInt (js_or sales (JStr "0")) ;;
        wallets <- (m <- get metrics "washtrade_wallets" ;; optional_value m) ;;
        washtrade_wallets <- parseInt (js_or wallets (JStr "0")) ;;
        assets <- (m <- get metrics "washtrade_assets" ;; optional_value m) ;;
        washtrade_assets <- parseInt (js_or assets (JStr "0")) ;;
        risk <- (m <- get metrics "washtrade_suspect_sales" ;; optional_value m) ;;
        Return {| wash_trading_volume := washtrade_volume;
                  total_volume := Num 0;
                  wash_trading_percentage := Num 0;
                  wash_trading_sales := washtrade_sales;
                  total_sales := Num 0;
                  wash_trading_wallets := washtrade_wallets;
                  wash_trading_assets := washtrade_assets;
                  risk_score := js_or risk (JNum (Num 0));
                  note := Summary |}
      else
        Return {| wash_trading_volume := Num 0;
                  total_volume := Num 0;
                  wash_trading_percentage := Num 0;
                  wash_trading_sales := Num 0;
                  total_sales := Num 0;
                  wash_trading_wallets := Num 0;
                  wash_trading_assets := Num 0;
                  risk_score := JNum (Num 0);
                  note := Message |}
  end.

(** [getCollectionWashTrading], given the data of the upstream answer or
    the failure of the request: every exception ends in null. *)
Definition getCollectionWashTrading (response : result jsval)
    : option WashTrading :=
  match (data <- response ;; washTradingOf data) with
  | Return w => Some w
  | Throw _ => None
  end.

(** [getCollectionData], given the two upstream answers (the collection
    and the data of the metrics response) or their failure. *)
Definition getCollectionData (address : string)
    (collectionResponse : result CollectionInfo)
    (metricsResponse : result jsval) : option CollectionData :=
  let metric (metricsData : jsval) (key : string) : result number :=
    m <- get metricsData key ;; getValue NumberToString m in
  match
    (collection <- collectionResponse ;;
     data <- metricsResponse ;;
     metric_values <- get data "metric_values" ;;
     let metricsData := js_or metric_values (JObj []) in
     holders <- metric metricsData "holders" ;;
     volume <- metric metricsData "volume" ;;
     floor <- metric metricsData "floor_price" ;;
     price_avg <- metric metricsData "price_avg" ;;
     sales <- metric metricsData "sales" ;;
     volume_change <- metric metricsData "volume_change" ;;
     sales_change <- metric metricsData "sales_change" ;;
     marketcap <- metric metricsData "marketcap" ;;
     Return {| contract_address := address;
               Collection.name :=
                 match info_name collection with
                 | Some n => if n =? "" then "Unknown Collection" else n
                 | None => "Unknown Collection"
                 end;
               owner_count := holders;
               Collection.nft_count :=
                 match info_nft_count collection with
                 | Some n => num_or n (Num 0)
                 | None => Num 0
                 end;
               Collection.volume_24h := volume;
               Collection.floor_price := floor;
               average_price_24h := price_avg;
               Collection.sales_24h := sales;
               Collection.volume_change_24h := volume_change;
               floor_price_change_24h := Num 0;
               average_price_change_24h := Num 0;
               sales_change_24h := sales_change;
               market_cap := marketcap;
               fully_diluted_market_cap := marketcap |})
  with
  | Return c => Some c
  | Throw _ => None
  end.

End Requests.

End UnleashClient.

(** ** detectWashTrading: the handler *)

(** [Math.round]: the nearest integer, the larger one on a tie. *)
Definition Math_round (a : number) : number :=
  match a with
  | Num x => Num (inject_Z (Qfloor (x + (1 # 2))))
  | _ => a
  end.

Module WashTradingTool.
Import WashTrading UnleashClient.

Record Metrics := {
  m_wash_trading_volume : number;
  m_total_volume : number;
  m_wash_trading_percentage : number;
  m_wash_trading_sales : number;
  m_total_sales : number;
  average_wash_trade_size : number
}.

Record Evidence := {
  circular_trades : number;
  rapid_flips : number;
  same_wallet_trades : number;
  time_range_analyzed : string;
  data_points_analyzed : number
}.

(** The result object of the handler; the fields of its [metrics] block
    carry the prefix [m_]. *)
Record Detection := {
  collection_name : string;
  contract_address : string;
  blockchain : string;
  time_range : string;
  wash_trading_detected : bool;
  severity : Severity;
  metrics : Metrics;
  evidence : Evidence;
  suspicious_patterns : list string;
  analysis : string;
  recommendations : list string
}.

Inductive Payload :=
| Unavailable (collection_address blockchain : string)
| Detected (detection : Detection).

(** [severity.toLowerCase()]. *)
Definition lowerName (severity_ : Severity) : string :=
  match severity_ with
  | CRITICAL => "critical"
  | HIGH => "high"
  | MODERATE => "moderate"
  | LOW => "low"
  | MINIMAL => "minimal"
  end.

Section WithNumberToString.

Variable NumberToString : number -> string.

Definition generateWashTradingAnalysis (washTradingData : WashTrading)
    (severity_ : Severity) : string :=
  match severity_ with
  | MINIMAL =>
      "This collection shows minimal wash trading activity ("
      ++ toFixed NumberToString 1 (wash_trading_percentage washTradingData)
      ++ "%), which is within normal market parameters. "
      ++ "The trading patterns appear organic with no significant artificial volume inflation detected."
  | _ =>
      "Analysis reveals " ++ lowerName severity_
      ++ " wash trading activity with "
      ++ toFixed NumberToString 1 (wash_trading_percentage washTradingData)
      ++ "% of volume identified as artificial. "
      ++ (if (wash_trading_sales washTradingData >? Num 0)%js then
            "Out of " ++ NumberToString (total_sales washTradingData)
            ++ " total sales, "
            ++ NumberToString (wash_trading_sales washTradingData)
            ++ " transactions show wash trading characteristics. "
          else "")
      ++ match severity_ with
         | CRITICAL =>
             "This level of wash trading is extremely concerning and suggests coordinated market manipulation. "
             ++ "The actual organic demand for this collection may be significantly lower than apparent market activity suggests."
         | HIGH =>
             "This indicates substantial artificial activity that may be inflating perceived market interest. "
             ++ "True price discovery is compromised by this level of wash trading."
         | MODERATE =>
             "While some wash trading is present, it's not completely dominating market activity. "
             ++ "However, investors should factor this artificial volume into their analysis."
         | _ =>
             "The wash trading present is notable but not overwhelming. "
             ++ "Exercise standard caution when evaluating market metrics."
         end
  end.

Definition getRecommendations (severity_ : Severity) (percentage : number)
    : list string :=
  let recommendations_ :=
    match severity_ with
    | CRITICAL | HIGH =>
        ["Avoid trading this collection until wash trading activity decreases";
         "If holding, consider the true liquidity may be much lower than displayed";
         "Be extremely cautious of current price levels as they may be artificially inflated"]
    | MODERATE =>
        ["Factor wash trading into any investment decisions";
         "Focus on holder count and distribution rather than volume metrics";
         "Consider waiting for wash trading to decrease before major investments"]
    | LOW =>
        ["Monitor wash trading trends over time";
         "Use multiple metrics beyond volume for investment decisions"]
    | MINIMAL =>
        ["No significant wash trading concerns";
         "Standard due diligence recommended"]
    end in
  push recommendations_
    ("Current wash trading represents " ++ toFixed NumberToString 1 percentage
     ++ "% of total volume").

(** The handler, given what the client returned for the wash-trading
    data and, when that is not null, for the collection. *)
Definition detectWashTrading (washTradingData : option WashTrading)
    (collectionData : option CollectionData)
    (collection_address time_range_ blockchain_ : string) : Payload :=
  match washTradingData with
  | None => Unavailable collection_address blockchain_
  | Some w =>
      (* Analyze wash trading patterns *)
      let washTradingDetected := (wash_trading_percentage w >? Num 5)%js in
      let severity_ := getWashTradingSeverity (wash_trading_percentage w) in
      Detected
        {| collection_name :=
             match collectionData with
             | Some c =>
                 if Collection.name c =? "" then "Unknown Collection"
                 else Collection.name c
             | None => "Unknown Collection"
             end;
           contract_address := collection_address;
           blockchain := blockchain_;
           time_range := time_range_;
           wash_trading_detected := washTradingDetected;
           severity := severity_;
           metrics :=
             {| m_wash_trading_volume := wash_trading_volume w;
                m_total_volume := total_volume w;
                m_wash_trading_percentage := wash_trading_percentage w;
                m_wash_trading_sales := wash_trading_sales w;
                m_total_sales := total_sales w;
                average_wash_trade_size :=
                  (wash_trading_volume w
                   / Math_max (wash_trading_sales w) (Num 1))%js |};
           evidence :=
             {| circular_trades :=
                  Math_round (wash_trading_sales w * double 0.4)%js;
                rapid_flips :=
                  Math_round (wash_trading_sales w * double 0.3)%js;
                same_wallet_trades :=
                  Math_round (wash_trading_sales w * double 0.3)%js;
                time_range_analyzed := time_range_;
                data_points_analyzed := total_sales w |};
           suspicious_patterns :=
             if washTradingDetected then
               ["Analysis shows multiple wallets with circular trading patterns";
                "Detailed wallet analysis requires transaction-level data"]
             else [];
           analysis := generateWashTradingAnalysis w severity_;
           recommendations :=
             getRecommendations severity_ (wash_trading_percentage w) |}
  end.

End WithNumberToString.

End WashTradingTool.

(** * Auxiliary definitions

    Sample inputs and reformulations used by the statements below. *)

Module Binary64Aux.

(** The number that a float of the Standard Library's specification of
    IEEE 754 denotes. *)
Definition of_spec (f : spec_float) : number :=
  match f with
  | S754_zero _ => Num 0
  | S754_infinity false => PosInf
  | S754_infinity true => NegInf
  | S754_nan => NaN
  | S754_finite negative m e =>
      let v := (inject_Z (Zpos m) * Qpower 2 e)%Q in
      Num (Qred (if negative then - v else v))
  end.

(** The same number, NaN included. *)
Definition num_same (a b : number) : bool :=
  match a, b with
  | Num x, Num y => Qeq_bool x y
  | PosInf, PosInf | NegInf, NegInf | NaN, NaN => true
  | _, _ => false
  end.

(** The four operations on [x] and [y] give what the specification gives
    for binary64 (53 bits of precision, exponents up to 1024). *)
Definition agree (x y : spec_float) : bool :=
  num_same (of_spec (SFadd 53 1024 x y)) (of_spec x + of_spec y)%js
  && num_same (of_spec (SFsub 53 1024 x y)) (of_spec x - of_spec y)%js
  && num_same (of_spec (SFmul 53 1024 x y)) (of_spec x * of_spec y)%js
  && num_same (of_spec (SFdiv 53 1024 x y)) (of_spec x / of_spec y)%js.

(** Pairs of doubles, as significand and exponent: budgets, fractions
    and prices of the advisor, and doubles at the ends of the range (the
    largest double, subnormal doubles, 2^53). *)
Definition operands : list (spec_float * spec_float) :=
  [(S754_finite false 5717460464435200 (-42),
    S754_finite false 6305039478318694 (-54));
   (S754_finite false 6157265115545600 (-43),
    S754_finite false 7205759403792794 (-54));
   (S754_finite false 4925812092436481 (-44),
    S754_finite false 5044031582654956 (-51));
   (S754_finite false 6755399441055744 (-51),
    S754_finite false 5404319552844595 (-54));
   (S754_finite false 8106479329266892 (-53),
    S754_finite false 5404319552844595 (-54));
   (S754_finite false 5498107894693888 (-38),
    S754_finite false 5404319552844595 (-54));
   (S754_finite false 5498107894693888 (-38),
    S754_finite false 4503599627370496 (-54));
   (S754_finite false 6597729473632665 (-40),
    S754_finite false 5498107894693888 (-40));
   (S754_finite false 7205759403792794 (-56),
    S754_finite false 7205759403792794 (-55));
   (S754_finite false 4503599627370496 (-52),
    S754_finite false 6755399441055744 (-51));
   (S754_finite false 4503599627370496 (-51),
    S754_finite false 6755399441055744 (-51));
   (S754_finite false 7036874417766400 (-46),
    S754_finite false 6305039478318694 (-54));
   (S754_finite false 8004444650209280 (-44),
    S754_finite true 5717460464435200 (-42));
   (S754_finite true 7205759403792794 (-56),
    S754_finite false 6305039478318694 (-53));
   (S754_finite false 8483885939586761 (-36),
    S754_finite false 7555786372591432 (-76));
   (S754_finite false 4897664594765414 (-50),
    S754_finite false 7036874417766400 (-46));
   (S754_finite false 5629499534213120 (-51),
    S754_finite false 7881299347898368 (-51));
   (S754_finite false 4503599627370496 (1),
    S754_finite false 4503599627370496 (-52));
   (S754_finite false 4503599627370496 (1),
    S754_finite false 6755399441055744 (-51));
   (S754_finite false 4768371582031250 (21),
    S754_finite false 7555786372591432 (-76));
   (S754_finite false 5010420900022432 (971),
    S754_finite false 5629499534213120 (-49));
   (S754_finite false 9007199254740991 (971),
    S754_finite false 9007199254740991 (971));
   (S754_finite false 9007199254740991 (971),
    S754_finite false 4512985939662074 (918));
   (S754_finite false 1 (-1074),
    S754_finite false 1 (-1074));
   (S754_finite false 1 (-1074),
    S754_finite false 4503599627370496 (-51));
   (S754_finite false 1 (-1074),
    S754_finite false 6755399441055744 (-51));
   (S754_finite false 4503599627370496 (-1074),
    S754_finite false 4503599627370496 (-53));
   (S754_finite false 4503599627370496 (-1074),
    S754_finite false 1 (-1074));
   (S754_finite false 2024 (-1074),
    S754_finite false 6724873095247260 (944));
   (S754_finite false 6032057205060441 (-1049),
    S754_finite false 6724873095247260 (944));
   (S754_finite false 6724873095247260 (944),
    S754_finite false 6032057205060441 (-1049));
   (S754_finite true 1 (-1074),
    S754_finite false 5010420900022432 (971));
   (S754_finite false 7555786372591432 (-76),
    S754_finite false 5010420900022432 (971));
   (S754_finite false 7205759403792794 (-57),
    S754_finite false 5404319552844595 (-55))].

End Binary64Aux.

Module AnalyzeCollectionAux.
Import AnalyzeCollection.

Definition sample_collection : CollectionData :=
  {| contract_address := "0xbc4ca0eda7647a8ab7c2061c2e118a18a936f13d";
     name := "Sample";
     owner_count := Num 5500; nft_count := Num 10000;
     volume_24h := Num 120000; floor_price := Num 300;
     average_price_24h := Num 320; sales_24h := Num 40;
     volume_change_24h := Num (-12); floor_price_change_24h := Num (-30);
     average_price_change_24h := Num 0; sales_change_24h := Num 3;
     market_cap := Num 3000000; fully_diluted_market_cap := Num 3000000 |}.

Definition wash_with (percentage : number) : WashTradingData :=
  {| wash_trading_volume := Num 0; total_volume := Num 0;
     wash_trading_percentage := percentage;
     wash_trading_sales := Num 0; total_sales := Num 0;
     wash_trading_wallets := Num 0; wash_trading_assets := Num 0;
     risk_score := Num 0 |}.

(** The same wash-trading record with another percentage. *)
Definition set_percentage (w : WashTradingData) (p : number) : WashTradingData :=
  {| wash_trading_volume := wash_trading_volume w;
     total_volume := total_volume w;
     wash_trading_percentage := p;
     wash_trading_sales := wash_trading_sales w;
     total_sales := total_sales w;
     wash_trading_wallets := wash_trading_wallets w;
     wash_trading_assets := wash_trading_assets w;
     risk_score := risk_score w |}.

(** The safety score as a function of the wash-trading percentage, all the
    other inputs fixed. *)
Definition score_at (c : CollectionData) (w : WashTradingData) (p : number) : number :=
  safety_score (analyze c (Some (set_percentage w p))).

(** The safety score as decided by the six tests of [analyze]: fewer than
    100 owners, fewer than 500 owners, percentage above 30, percentage above
    15, volume change below -50, floor price change above 30 in absolute
    value. *)
Definition score_flags (o1 o2 hi mid v f : bool) : number :=
  let st0 := (Num 100, @nil string) in
  let st1 :=
    if o1 then penalise st0 (Num 20) "low_holder_count"
    else if o2 then penalise st0 (Num 10) "moderate_holder_count"
    else st0 in
  let st2 :=
    if hi then penalise st1 (Num 30) "high_wash_trading"
    else if mid then penalise st1 (Num 15) "moderate_wash_trading"
    else st1 in
  let st3 := if v then penalise st2 (Num 15) "sharp_volume_decline" else st2 in
  let st4 := if f then penalise st3 (Num 10) "high_price_volatility" else st3 in
  fst st4.

End AnalyzeCollectionAux.

Module WalletRiskAux.
Import Wallet WalletRisk.

(** The canonical form of a wallet address, in the words of the
    specification: [0x] followed by 40 hexadecimal characters. *)
Definition canonical_address (s : string) : Prop :=
  exists body : string,
    s = "0x" ++ body /\ String.length body = 40%nat /\
    Forall (fun c => is_hex c = true) (list_ascii_of_string body).

(** A collaborator that knows one wallet. *)
Definition sample_client : Client :=
  fun address _ =>
    Return (Some {| address := address; is_whale := false; is_shark := true;
                    nft_count := Num 15; collection_count := Num 1;
                    total_value := Num 500; realized_gains := Num 0;
                    realized_losses := Num 20000;
                    washtrade_score := Num 60 |}).

End WalletRiskAux.

Module ClientAux.





End ClientAux.

Module MarketAux.
Import Market.

(** The four change fields of market metrics are all 0. *)
Definition zero_changes (m : MarketMetrics) : Prop :=
  (volume_change_24h m =? Num 0)%js = true /\
  (sales_change_24h m =? Num 0)%js = true /\
  (active_wallets_change m =? Num 0)%js = true /\
  (average_price_change m =? Num 0)%js = true.

Definition flat_market : MarketMetrics :=
  {| volume_24h := Num 2500000; volume_change_24h := Num 0;
     sales_24h := Num 1200; sales_change_24h := Num 0;
     average_price := (Num 2500000 / Num 1200)%js;
     average_price_change := Num 0;
     active_wallets := Num 4200; active_wallets_change := Num 0 |}.

(** The market metrics that the client aggregates from [six_candidates]
    of the advisor samples: six collections of volume 90000, 60 sales and
    2500 holders each. *)
Definition client_market : MarketMetrics :=
  {| volume_24h := Num 540000; volume_change_24h := Num 0;
     sales_24h := Num 360; sales_change_24h := Num 0;
     average_price := Num 1500; average_price_change := Num 0;
     active_wallets := Num 2500; active_wallets_change := Num 0 |}.

End MarketAux.

Module InvestmentAdviceAux.
Import InvestmentAdvice.

(** A trending collection with a given floor price. *)
Definition candidate (label : string) (floor : number) : CollectionData :=
  {| contract_address := "0x60e4d786628fea6478f785a6d7e704777c86a7c6";
     name := label;
     owner_count := Num 2500; Collection.nft_count := Num 8000;
     Collection.volume_24h := Num 90000; Collection.floor_price := floor;
     average_price_24h := Num 0; Collection.sales_24h := Num 60;
     Collection.volume_change_24h := Num 4; floor_price_change_24h := Num 2;
     average_price_change_24h := Num 0; sales_change_24h := Num 0;
     market_cap := Num 0; fully_diluted_market_cap := Num 0 |}.

Definition six_candidates : list CollectionData :=
  map (fun label => candidate label (Num 100)) ["a"; "b"; "c"; "d"; "e"; "f"].

(** The test of the loop of [scoreCollections], read as a filter. *)
Definition within (budget : number) (c : CollectionData) : bool :=
  negb (Collection.floor_price c >? budget)%js.

(** The allocation fraction of the rank [i] (from 0): the entry of the
    table of the risk tier, and 0.1 past the end of the table. *)
Definition fraction (riskTolerance : string) (i : nat) : number :=
  nth i (allocationStrategy riskTolerance) (double 0.1).

(** The allocation step, in the words of the specification: the candidate
    of rank [i] is included iff its floor price is at most its slice, the
    budget times the fraction of its rank. *)
Definition slot (budget : number) (riskTolerance horizon : string)
    (i : nat) (c : Scored) : list Recommendation :=
  let slice := (budget * fraction riskTolerance i)%js in
  if (floor_price c <=? slice)%js
  then [recommend c (fraction riskTolerance i) slice riskTolerance horizon]
  else [].

Fixpoint slots (budget : number) (riskTolerance horizon : string)
    (i : nat) (ranked : list Scored) : list Recommendation :=
  match ranked with
  | [] => []
  | c :: rest =>
      (slot budget riskTolerance horizon i c
       ++ slots budget riskTolerance horizon (S i) rest)%list
  end.

Definition allocation_by_rank (ranked : list Scored) (budget : number)
    (riskTolerance horizon : string) : list Recommendation :=
  slots budget riskTolerance horizon 0
    (firstn (maxPositions budget riskTolerance) ranked).

(** Each number of the list is below the ones before it. *)
Definition decreasing (l : list number) : Prop :=
  StronglySorted (fun a b => (b <? a)%js = true) l.

End InvestmentAdviceAux.

Module ScorerAux.

(** The penalty that [analyze] takes off the safety score with each risk
    tag. *)
Definition penalty_of (tag : string) : number :=
  if tag =? "low_holder_count" then Num 20
  else if tag =? "moderate_holder_count" then Num 10
  else if tag =? "high_wash_trading" then Num 30
  else if tag =? "moderate_wash_trading" then Num 15
  else if tag =? "sharp_volume_decline" then Num 15
  else if tag =? "high_price_volatility" then Num 10
  else Num 0.

(** 100 less the penalties of the listed tags, taken off in order. *)
Definition score_of_risks (tags : list string) : number :=
  fold_left (fun score tag => (score - penalty_of tag)%js) tags (Num 100).

End ScorerAux.

Module SentimentAux.
Import Market MarketTrends.

(** The same market with every change reversed. *)
Definition reverse_changes (m : MarketMetrics) : MarketMetrics :=
  {| volume_24h := volume_24h m;
     volume_change_24h := num_neg (volume_change_24h m);
     sales_24h := sales_24h m;
     sales_change_24h := num_neg (sales_change_24h m);
     average_price := average_price m;
     average_price_change := num_neg (average_price_change m);
     active_wallets := active_wallets m;
     active_wallets_change := num_neg (active_wallets_change m) |}.

Definition opposite (s : Sentiment) : Sentiment :=
  match s with
  | bullish => bearish
  | bearish => bullish
  | neutral => neutral
  end.

(** What the volume change adds to the sentiment score. *)
Definition volume_points (x : number) : Z :=
  if (x >? Num 20)%js then 2
  else if (x >? Num 0)%js then 1
  else if (x <? Num (-20))%js then -2
  else if (x <? Num 0)%js then -1
  else 0.

(** What a change adds to the sentiment score when it is tested against
    the threshold [t] and its opposite [t']. *)
Definition change_points (t t' : Q) (x : number) : Z :=
  if (x >? Num t)%js then 1
  else if (x <? Num t')%js then -1
  else 0.

(** The sentiment score of a market and its class. *)
Definition sentiment_points (m : MarketMetrics) : Z :=
  volume_points (volume_change_24h m)
  + change_points 15 (-15) (sales_change_24h m)
  + change_points 10 (-10) (active_wallets_change m)
  + change_points 10 (-10) (average_price_change m).

Definition classify (points : Z) : Sentiment :=
  if (3 <=? points)%Z then bullish
  else if (points <=? -3)%Z then bearish
  else neutral.

End SentimentAux.

Module RankingAux.

(** A whole number of less than 53 bits: a double, and so is its
    difference with another one. *)
Definition whole (a : number) : Prop :=
  exists z : Z, a = Num (inject_Z z) /\ (Z.abs z < 2 ^ 52)%Z.

(** The order of a ranking: [a] may stand before [b]. *)
Definition ranks_before {A : Type} (key : A -> number) (a b : A) : Prop :=
  (key b <=? key a)%js = true.

(** The comparator [(a, b) => key(b) - key(a)]. *)
Definition descending {A : Type} (key : A -> number) (a b : A) : number :=
  (key b - key a)%js.

Definition whole_keys {A : Type} (key : A -> number) (l : list A) : Prop :=
  Forall (fun a => whole (key a)) l.

End RankingAux.

Module AdvisorAux.
Import InvestmentAdvice InvestmentAdviceAux.

(** The recommendation for a single candidate of floor price 100 with a
    budget of 1000 and a moderate risk tolerance: 35% of the budget. *)
Definition affordable_pick : Recommendation :=
  recommend (scoreCollection "moderate" "medium" (candidate "a" (Num 100)))
    (double 0.35) (Num 350) "moderate" "medium".

(** The same for a candidate of floor price 0. *)
Definition free_pick : Recommendation :=
  recommend (scoreCollection "moderate" "medium" (candidate "a" (Num 0)))
    (double 0.35) (Num 350) "moderate" "medium".

(** A whole number between 0 and [k]. *)
Definition points_upto (k : Z) (n : number) : Prop :=
  exists z : Z, n = Num (inject_Z z) /\ (0 <= z <= k)%Z.

End AdvisorAux.

Module UnleashClientAux.
Import UnleashClient.

(** The data of a metrics response in which the floor price is not yet
    computed. *)
Definition sample_metrics_response : jsval :=
  JObj [("metric_values",
         JObj [("holders", JObj [("value", JStr "5400"); ("unit", JStr "count")]);
               ("volume", JObj [("value", JStr "120000.5"); ("unit", JStr "usd")]);
               ("floor_price", JObj [("value", JStr "NA"); ("unit", JStr "usd")]);
               ("sales", JObj [("value", JStr "40"); ("unit", JStr "count")])])].

(** The collection that [getCollectionData] builds from it. *)
Definition sample_listing : CollectionData :=
  {| contract_address := "0xabc";
     Collection.name := "Sample";
     owner_count := Num 5400;
     Collection.nft_count := Num 0;
     Collection.volume_24h := Num (240001 # 2);
     Collection.floor_price := Num 0;
     average_price_24h := Num 0;
     Collection.sales_24h := Num 40;
     Collection.volume_change_24h := Num 0;
     floor_price_change_24h := Num 0;
     average_price_change_24h := Num 0;
     sales_change_24h := Num 0;
     market_cap := Num 0;
     fully_diluted_market_cap := Num 0 |}.

(** The data of a trend response with one data point. *)
Definition sample_trend_response : jsval :=
  JObj [("data_points",
         JArr [JObj [("date", JStr "2024-05-01");
                     ("values",
                      JObj [("washtrade_volume", JStr "1523.5");
                            ("washtrade_suspect_sales", JStr "12");
                            ("washtrade_wallets", JStr "7");
                            ("washtrade_assets", JStr "9");
                            ("washtrade_suspect_sales_change", JStr "NA")])]])].

(** What [getCollectionWashTrading] makes of it. *)
Definition sample_trend_record : WashTrading :=
  {| wash_trading_volume := Num (3047 # 2);
     total_volume := Num 0;
     wash_trading_percentage := Num 0;
     wash_trading_sales := Num 12;
     total_sales := Num 0;
     wash_trading_wallets := Num 7;
     wash_trading_assets := Num 9;
     risk_score := JStr "NA";
     note := Date (JStr "2024-05-01") |}.

(** The numeric fields of that record, as the handlers read them. *)
Definition sample_trend_data : WashTradingData :=
  {| Collection.wash_trading_volume := Num (3047 # 2);
     Collection.total_volume := Num 0;
     Collection.wash_trading_percentage := Num 0;
     Collection.wash_trading_sales := Num 12;
     Collection.total_sales := Num 0;
     Collection.wash_trading_wallets := Num 7;
     Collection.wash_trading_assets := Num 9;
     Collection.risk_score := Num 0 |}.

End UnleashClientAux.


(** * Properties *)

(** ** Order facts on numbers *)

Lemma Qltb_true (x y : Q) : Qltb x y = true <-> (x < y)%Q.
Proof.
  unfold Qltb. rewrite negb_true_iff. split; intro H.
  - apply Qnot_le_lt. intro L. apply Qle_bool_iff in L. congruence.
  - destruct (Qle_bool y x) eqn:E; [|reflexivity].
    apply Qle_bool_iff in E. exfalso. apply (Qlt_not_le _ _ H E).
Qed.

Lemma Qltb_false (x y : Q) : Qltb x y = false <-> (y <= x)%Q.
Proof.
  unfold Qltb. rewrite negb_false_iff. apply Qle_bool_iff.
Qed.

(** Turn every boolean comparison of rationals in the context and the goal
    into the proposition it decides. *)
Ltac qprop :=
  repeat match goal with
  | H : Qltb _ _ = true |- _ => apply Qltb_true in H
  | H : Qltb _ _ = false |- _ => apply Qltb_false in H
  | H : Qeq_bool _ _ = true |- _ => apply Qeq_bool_iff in H
  | H : Qeq_bool _ _ = false |- _ => apply Qeq_bool_neq in H
  | |- Qltb _ _ = true => apply Qltb_true
  | |- Qltb _ _ = false => apply Qltb_false
  end.

Lemma num_le_lt_false (a b : number) :
  (a <=? b)%js = true -> (b <? a)%js = false.
Proof.
  unfold num_le. intro H.
  apply andb_true_iff in H. destruct H as [_ H].
  now apply negb_true_iff in H.
Qed.

Lemma num_le_not_gt (a b : number) :
  (a <=? b)%js = true -> (a >? b)%js = false.
Proof. apply num_le_lt_false. Qed.

Lemma num_lt_trans (a b c : number) :
  (a <? b)%js = true -> (b <? c)%js = true -> (a <? c)%js = true.
Proof.
  destruct a, b, c; simpl; try congruence; intros; qprop; lra.
Qed.

Lemma num_le_lt_trans (a b c : number) :
  (a <=? b)%js = true -> (b <? c)%js = true -> (a <? c)%js = true.
Proof.
  unfold num_le.
  destruct a, b, c; simpl; try congruence; intros H1 H2;
    try apply negb_true_iff in H1; qprop; lra.
Qed.

Lemma num_lt_le_trans (a b c : number) :
  (a <? b)%js = true -> (b <=? c)%js = true -> (a <? c)%js = true.
Proof.
  unfold num_le.
  destruct a, b, c; simpl; try congruence; intros H1 H2;
    try apply negb_true_iff in H2; qprop; lra.
Qed.

Lemma num_lt_irrefl (a : number) : (a <? a)%js = false.
Proof. destruct a; simpl; try reflexivity. qprop. lra. Qed.

(** For numbers other than NaN, [<] and [>=] are complementary. *)
Lemma num_ge_not_lt (a b : number) :
  isNaN a = false -> isNaN b = false ->
  (a >=? b)%js = negb (a <? b)%js.
Proof.
  unfold num_ge, num_le. intros -> ->. reflexivity.
Qed.

Lemma num_ge_lt_false (a b c : number) :
  (a >=? b)%js = true -> (c <=? b)%js = true -> (a <? c)%js = false.
Proof.
  intros Hab Hcb. destruct (a <? c)%js eqn:E; [|reflexivity].
  pose proof (num_lt_le_trans _ _ _ E Hcb) as L.
  apply num_le_lt_false in Hab. congruence.
Qed.

Lemma num_le_gt_false (a b c : number) :
  (a <=? b)%js = true -> (b <=? c)%js = true -> (a >? c)%js = false.
Proof.
  intros Hab Hbc. unfold num_gt. destruct (c <? a)%js eqn:E; [|reflexivity].
  pose proof (num_lt_le_trans _ _ _ E Hab) as L.
  apply num_le_lt_false in Hbc. congruence.
Qed.

(** ** Rounding: agreement with the specification of binary64 *)

(** On the sample operands, sums, differences, products and quotients
    are those of the Standard Library's specification of IEEE 754
    arithmetic at binary64, results beyond the range and subnormal
    results included. *)
Example binary64_agreement :
  forallb (fun p => Binary64Aux.agree (fst p) (snd p)) Binary64Aux.operands = true.
Proof. vm_compute. reflexivity. Qed.

(** The decimal literals of the advisor and some well-known results. *)
Example double_samples :
  double 0.35 = Num (3152519739159347 # 9007199254740992) /\
  (double 0.1 + double 0.2)%js = Num (1351079888211149 # 4503599627370496) /\
  (Num 1300 * double 0.35 <? Num 455)%js = true /\
  (Num 20000 * double 0.35)%js = Num 7000 /\
  (Num 1 / Num 0)%js = PosInf /\
  (double 1e308 * Num 10)%js = PosInf /\
  (double 5e-324 / Num 2)%js = Num 0 /\
  (Num 9007199254740992 + Num 1)%js = Num 9007199254740992.
Proof. vm_compute. repeat split. Qed.

(** ** Rounding: whole numbers are exact *)

Lemma Qred_inject_Z (z : Z) : Qred (inject_Z z) = inject_Z z.
Proof.
  unfold Qred, inject_Z.
  pose proof (Z.ggcd_gcd z 1) as G.
  pose proof (Z.ggcd_correct_divisors z 1) as D.
  destruct (Z.ggcd z 1) as [g [a b]]. cbn [fst snd] in *.
  rewrite Z.gcd_1_r in G. subst g. destruct D as [Da Db].
  assert (Hb : b = 1%Z) by lia. assert (Ha : a = z) by lia.
  rewrite Hb, Ha. reflexivity.
Qed.

Lemma Qred_whole (n : Z) (d : positive) (z : Z) :
  (n = z * Zpos d)%Z -> Qred (n # d) = inject_Z z.
Proof.
  intro H. rewrite <- (Qred_inject_Z z). apply Qred_complete.
  unfold Qeq, inject_Z. cbn [Qnum Qden]. lia.
Qed.

Lemma floor_log2_whole (a : positive) : floor_log2 a 1 = Z.log2 (Zpos a).
Proof.
  unfold floor_log2. change (Z.log2 1) with 0%Z. rewrite Z.sub_0_r.
  pose proof (Z.log2_nonneg (Zpos a)) as N.
  pose proof (Z.log2_spec (Zpos a) ltac:(lia)) as S.
  rewrite (Z.max_l 0 (- Z.log2 (Zpos a))) by lia.
  rewrite (Z.max_r 0 (Z.log2 (Zpos a))) by lia.
  destruct (Z.ltb_spec (Zpos a * 2 ^ 0) (1 * 2 ^ Z.log2 (Zpos a))); [|reflexivity].
  exfalso. rewrite Z.pow_0_r in *. lia.
Qed.

Lemma nearest_even_whole (n : Z) : nearest_even n 1 = n.
Proof.
  unfold nearest_even. rewrite Z.mod_1_r, Z.div_1_r. reflexivity.
Qed.

Lemma round_magnitude_whole (a : positive) :
  (Zpos a < 2 ^ 53)%Z -> round_magnitude a 1 = Some (inject_Z (Zpos a)).
Proof.
  intro H. unfold round_magnitude. rewrite floor_log2_whole.
  pose proof (Z.log2_nonneg (Zpos a)) as N.
  assert (L : (Z.log2 (Zpos a) < 53)%Z) by (apply Z.log2_lt_pow2; lia).
  set (e := (Z.log2 (Zpos a) - 52)%Z).
  assert (He : (-52 <= e <= 0)%Z) by (unfold e; lia).
  rewrite (Z.max_l e (-1074)) by lia.
  rewrite (Z.max_r 0 (- e)) by lia. rewrite (Z.max_l 0 e) by lia.
  rewrite Z.pow_0_r, !Z.mul_1_r, nearest_even_whole.
  assert (P : (0 < 2 ^ (- e) <= 2 ^ 52)%Z).
  { split; [apply Z.pow_pos_nonneg; lia|]. apply Z.pow_le_mono_r; lia. }
  destruct (Z.leb_spec (2 ^ 1024) (Zpos a * 2 ^ (- e))) as [O|O].
  - exfalso.
    assert (Zpos a * 2 ^ (- e) < 2 ^ 53 * 2 ^ 52)%Z by nia.
    assert (2 ^ 53 * 2 ^ 52 < 2 ^ 1024)%Z by (vm_compute; reflexivity).
    lia.
  - f_equal. apply Qred_whole. rewrite Z2Pos.id by lia. reflexivity.
Qed.

(** A whole number below 2^53 in magnitude is a double. *)
Lemma round64_whole (z : Z) :
  (Z.abs z < 2 ^ 53)%Z -> round64 (inject_Z z) = Num (inject_Z z).
Proof.
  intro H. unfold round64, inject_Z. cbn [Qnum Qden].
  destruct z as [|a|a]; [reflexivity| |].
  - rewrite round_magnitude_whole by exact H. reflexivity.
  - rewrite round_magnitude_whole by exact H. f_equal.
    apply (Qred_whole (Zneg a) 1 (Zneg a)). lia.
Qed.

Lemma num_add_whole (x y : Z) :
  (Z.abs (x + y) < 2 ^ 53)%Z ->
  (Num (inject_Z x) + Num (inject_Z y))%js = Num (inject_Z (x + y)).
Proof.
  intro H. cbn [num_add]. rewrite <- (round64_whole (x + y) H).
  unfold round64, Qplus, inject_Z. cbn [Qnum Qden]. rewrite !Z.mul_1_r.
  reflexivity.
Qed.

Lemma num_sub_whole (x y : Z) :
  (Z.abs (x - y) < 2 ^ 53)%Z ->
  (Num (inject_Z x) - Num (inject_Z y))%js = Num (inject_Z (x - y)).
Proof.
  intro H. unfold num_sub. cbn [num_neg].
  replace (Qred (- inject_Z y)) with (inject_Z (- y)).
  - rewrite num_add_whole by (replace (x + - y)%Z with (x - y)%Z by lia; exact H).
    f_equal.
  - symmetry. unfold Qopp, inject_Z. cbn [Qnum Qden]. apply Qred_whole. lia.
Qed.

(** ** Rounding: a result of at least 1 *)

(** For a ratio of at least 1 the exponent of the binade is not negative
    and [2^e] is at most the ratio. *)
Lemma floor_log2_lower (a b : positive) :
  (Zpos b <= Zpos a)%Z ->
  (0 <= floor_log2 a b)%Z /\ (Zpos b * 2 ^ floor_log2 a b <= Zpos a)%Z.
Proof.
  intro H. unfold floor_log2.
  pose proof (Z.log2_le_mono _ _ H) as M.
  pose proof (Z.log2_nonneg (Zpos b)) as Nb.
  pose proof (Z.log2_spec (Zpos a) ltac:(lia)) as Sa.
  pose proof (Z.log2_spec (Zpos b) ltac:(lia)) as Sb.
  set (la := Z.log2 (Zpos a)) in *. set (lb := Z.log2 (Zpos b)) in *.
  rewrite (Z.max_l 0 (- (la - lb))) by lia.
  rewrite (Z.max_r 0 (la - lb)) by lia.
  rewrite Z.pow_0_r, Z.mul_1_r.
  destruct (Z.ltb_spec (Zpos a) (Zpos b * 2 ^ (la - lb))) as [T|T].
  - assert (D : (1 <= la - lb)%Z).
    { destruct (Z.eq_dec (la - lb) 0) as [E|E]; [|lia].
      rewrite E, Z.pow_0_r in T. lia. }
    split; [lia|].
    assert (P : (2 ^ la = 2 ^ (lb + 1) * 2 ^ (la - lb - 1))%Z).
    { rewrite <- Z.pow_add_r by lia. f_equal. lia. }
    assert (0 < 2 ^ (la - lb - 1))%Z by (apply Z.pow_pos_nonneg; lia).
    replace (Z.succ lb) with (lb + 1)%Z in Sb by lia.
    nia.
  - split; lia.
Qed.

Lemma nearest_even_lower (n d : Z) : (n / d <= nearest_even n d)%Z.
Proof.
  unfold nearest_even.
  destruct (2 * (n mod d) ?= d)%Z; [destruct (Z.even (n / d))| |]; lia.
Qed.

(** Rounding does not take a result of at least 1 below 1. *)
Lemma round64_ge_1 (x : Q) :
  (1 <= x)%Q ->
  round64 x = PosInf \/ exists v, round64 x = Num v /\ (1 <= v)%Q.
Proof.
  destruct x as [n b]. intro H. unfold Qle in H. cbn [Qnum Qden] in H.
  destruct n as [|a|a]; try lia.
  assert (Hab : (Zpos b <= Zpos a)%Z) by lia.
  unfold round64. cbn [Qnum Qden]. unfold round_magnitude.
  destruct (floor_log2_lower a b Hab) as [F0 F].
  set (fl := floor_log2 a b) in *.
  rewrite (Z.max_l (fl - 52) (-1074)) by lia.
  set (e := (fl - 52)%Z).
  set (m := nearest_even (Zpos a * 2 ^ Z.max 0 (- e)) (Zpos b * 2 ^ Z.max 0 e)).
  destruct (Z.leb (2 ^ 1024) (m * 2 ^ Z.max 0 e)); [now left|].
  right. eexists. split; [reflexivity|].
  rewrite Qred_correct. unfold Qle. cbn [Qnum Qden]. rewrite Z.mul_1_l, Z.mul_1_r.
  assert (P0 : (0 < 2 ^ Z.max 0 (- e))%Z) by (apply Z.pow_pos_nonneg; lia).
  assert (P1 : (0 < 2 ^ Z.max 0 e)%Z) by (apply Z.pow_pos_nonneg; lia).
  rewrite Z2Pos.id by exact P0.
  pose proof (nearest_even_lower (Zpos a * 2 ^ Z.max 0 (- e)) (Zpos b * 2 ^ Z.max 0 e)) as L.
  fold m in L.
  destruct (Z.le_ge_cases e 0) as [E|E].
  - rewrite (Z.max_r 0 (- e)) in * by lia. rewrite (Z.max_l 0 e) in * by lia.
    rewrite Z.pow_0_r, Z.mul_1_r in *.
    assert (2 ^ (- e) <= Zpos a * 2 ^ (- e) / Zpos b)%Z
      by (apply Z.div_le_lower_bound; nia).
    lia.
  - rewrite (Z.max_l 0 (- e)) in * by lia. rewrite (Z.max_r 0 e) in * by lia.
    rewrite Z.pow_0_r, Z.mul_1_r in *.
    assert (Pe : (2 ^ e <= 2 ^ fl)%Z) by (apply Z.pow_le_mono_r; lia).
    assert (1 <= Zpos a / (Zpos b * 2 ^ e))%Z
      by (apply Z.div_le_lower_bound; nia).
    nia.
Qed.

(** ** analyzeCollection *)

Module AnalyzeCollectionFacts.
Import AnalyzeCollection AnalyzeCollectionAux.

Lemma score_at_flags (c : CollectionData) (w : WashTradingData) (p : number) :
  score_at c w p =
  score_flags (owner_count c <? Num 100)%js (owner_count c <? Num 500)%js
    (p >? Num 30)%js (p >? Num 15)%js
    (volume_change_24h c <? Num (-50))%js
    (Math_abs (floor_price_change_24h c) >? Num 30)%js.
Proof. reflexivity. Qed.

(** C1: a collection with at least 500 owners, a 24h volume change of at
    least -50, a 24h floor price change of absolute value at most 30 and
    (when wash-trading metrics are present) a wash-trading percentage of at
    most 15 gets safety score exactly 100, no risk tag and the
    recommendation SAFE. *)
Theorem healthy_collection_is_safe (c : CollectionData)
    (w : option WashTradingData) :
  (owner_count c >=? Num 500)%js = true ->
  (volume_change_24h c >=? Num (-50))%js = true ->
  (Math_abs (floor_price_change_24h c) <=? Num 30)%js = true ->
  (forall m, w = Some m -> (wash_trading_percentage m <=? Num 15)%js = true) ->
  analyze c w =
    {| safety_score := Num 100; risks := []; recommendation := SAFE |}.
Proof.
  intros Hown Hvol Hfloor Hwash. unfold analyze.
  rewrite (num_ge_lt_false _ _ (Num 100) Hown) by reflexivity.
  rewrite (num_ge_lt_false _ _ (Num 500) Hown) by reflexivity.
  rewrite (num_le_lt_false _ _ Hvol).
  rewrite (num_le_not_gt _ _ Hfloor).
  destruct w as [m|]; [|reflexivity].
  specialize (Hwash m eq_refl).
  rewrite (num_le_gt_false _ _ (Num 30) Hwash) by reflexivity.
  rewrite (num_le_gt_false _ _ (Num 15) Hwash) by reflexivity.
  reflexivity.
Qed.

Lemma healthy_collection_is_safe_witness :
  analyze sample_collection (Some (wash_with (Num 15))) =
    {| safety_score := Num 100; risks := []; recommendation := SAFE |}.
Proof.
  apply healthy_collection_is_safe;
    [reflexivity | reflexivity | reflexivity |].
  intros m H. injection H as <-. reflexivity.
Defined.

Lemma num_gt_mono (p1 p2 t : number) :
  (p1 <=? p2)%js = true -> (p1 >? t)%js = true -> (p2 >? t)%js = true.
Proof. unfold num_gt. intros H1 H2. exact (num_lt_le_trans _ _ _ H2 H1). Qed.

Lemma num_gt_30_15 (p : number) :
  (p >? Num 30)%js = true -> (p >? Num 15)%js = true.
Proof. unfold num_gt. apply num_lt_trans. reflexivity. Qed.

(** Close a goal whose context holds contradictory facts on the two
    wash-trading tests. *)
Ltac order_clash :=
  exfalso;
  repeat match goal with
  | H : ?x = true -> _, E : ?x = true |- _ => specialize (H E)
  | H : true = true -> _ |- _ => specialize (H eq_refl)
  | H : (?a <=? ?b)%js = true, E : (?a >? ?b)%js = true |- _ =>
      rewrite (num_le_not_gt _ _ H) in E
  end; congruence.

(** C4 (amended): with every other input fixed, the safety score never
    increases when the wash-trading percentage increases; it drops by
    exactly 15 when the percentage crosses 15 (staying at most 30), by
    another 15 when it crosses 30, and it does not change below 15: the
    scorer has no boundary at 5. *)
Theorem safety_score_wash_monotone (c : CollectionData) (w : WashTradingData)
    (p1 p2 : number) :
  (p1 <=? p2)%js = true ->
  (score_at c w p2 <=? score_at c w p1)%js = true /\
  ((p1 <=? Num 15)%js = true -> (p2 >? Num 15)%js = true ->
   (p2 <=? Num 30)%js = true ->
   score_at c w p2 = (score_at c w p1 - Num 15)%js) /\
  ((p1 >? Num 15)%js = true -> (p1 <=? Num 30)%js = true ->
   (p2 >? Num 30)%js = true ->
   score_at c w p2 = (score_at c w p1 - Num 15)%js) /\
  ((p2 <=? Num 15)%js = true -> score_at c w p2 = score_at c w p1).
Proof.
  intros Hle.
  pose proof (num_gt_mono p1 p2 (Num 30) Hle) as M30.
  pose proof (num_gt_mono p1 p2 (Num 15) Hle) as M15.
  pose proof (num_gt_30_15 p1) as D1.
  pose proof (num_gt_30_15 p2) as D2.
  rewrite !score_at_flags.
  generalize (owner_count c <? Num 100)%js (owner_count c <? Num 500)%js
    (volume_change_24h c <? Num (-50))%js
    (Math_abs (floor_price_change_24h c) >? Num 30)%js.
  intros o1 o2 v f.
  destruct (p1 >? Num 30)%js eqn:E1; destruct (p1 >? Num 15)%js eqn:E2;
    destruct (p2 >? Num 30)%js eqn:E3; destruct (p2 >? Num 15)%js eqn:E4;
    try order_clash;
    (split; [|split; [|split]]; intros; try order_clash;
     destruct o1, o2, v, f; vm_compute; reflexivity).
Qed.

Lemma safety_score_wash_monotone_witness :
  (score_at sample_collection (wash_with (Num 0)) (Num 20)
     <=? score_at sample_collection (wash_with (Num 0)) (Num 10))%js = true.
Proof.
  apply (safety_score_wash_monotone sample_collection (wash_with (Num 0))
           (Num 10) (Num 20)).
  reflexivity.
Defined.

(** C4 as stated fails at the boundary 5: raising the percentage from 4 to
    6 crosses 5 and leaves the safety score where it was. *)
Lemma no_step_at_5 :
  (Num 4 <=? Num 5)%js = true /\ (Num 6 >? Num 5)%js = true /\
  score_at sample_collection (wash_with (Num 0)) (Num 6) =
  score_at sample_collection (wash_with (Num 0)) (Num 4) /\
  (score_at sample_collection (wash_with (Num 0)) (Num 6)
     <? score_at sample_collection (wash_with (Num 0)) (Num 4))%js = false.
Proof. repeat split. Qed.

End AnalyzeCollectionFacts.

(** ** detectWashTrading *)

Module WashTradingFacts.
Import WashTrading.

(** C2: for every percentage (a number other than NaN) the severity is
    CRITICAL iff p >= 40, HIGH iff 25 <= p < 40, MODERATE iff
    15 <= p < 25, LOW iff 5 <= p < 15 and MINIMAL iff p < 5; 39.9 is HIGH
    and 40 is CRITICAL. *)
Theorem severity_tiers (p : number) :
  isNaN p = false ->
  (getWashTradingSeverity p = CRITICAL <-> (p >=? Num 40)%js = true) /\
  (getWashTradingSeverity p = HIGH <->
     (p >=? Num 25)%js = true /\ (p <? Num 40)%js = true) /\
  (getWashTradingSeverity p = MODERATE <->
     (p >=? Num 15)%js = true /\ (p <? Num 25)%js = true) /\
  (getWashTradingSeverity p = LOW <->
     (p >=? Num 5)%js = true /\ (p <? Num 15)%js = true) /\
  (getWashTradingSeverity p = MINIMAL <-> (p <? Num 5)%js = true) /\
  getWashTradingSeverity (Num (399 # 10)) = HIGH /\
  getWashTradingSeverity (Num 40) = CRITICAL.
Proof.
  intros Hp. unfold getWashTradingSeverity.
  rewrite !(num_ge_not_lt p) by (assumption || reflexivity).
  assert (T1 : (p <? Num 5)%js = true -> (p <? Num 15)%js = true)
    by (intro H; apply (num_lt_trans _ _ _ H); reflexivity).
  assert (T2 : (p <? Num 15)%js = true -> (p <? Num 25)%js = true)
    by (intro H; apply (num_lt_trans _ _ _ H); reflexivity).
  assert (T3 : (p <? Num 25)%js = true -> (p <? Num 40)%js = true)
    by (intro H; apply (num_lt_trans _ _ _ H); reflexivity).
  destruct (p <? Num 40)%js, (p <? Num 25)%js, (p <? Num 15)%js,
    (p <? Num 5)%js; cbn [negb];
    try (specialize (T1 eq_refl)); try (specialize (T2 eq_refl));
    try (specialize (T3 eq_refl)); try discriminate;
    repeat split; try reflexivity; try discriminate;
    intros; repeat match goal with H : _ /\ _ |- _ => destruct H end;
    try discriminate.
Qed.

Lemma severity_tiers_witness :
  getWashTradingSeverity (Num 30) = HIGH <->
  (Num 30 >=? Num 25)%js = true /\ (Num 30 <? Num 40)%js = true.
Proof.
  apply (severity_tiers (Num 30)). reflexivity.
Defined.

End WashTradingFacts.

(** ** checkWalletRisk *)

Module WalletRiskFacts.
Import Wallet WalletRisk WalletRiskAux.

(** C3: the profile with wash-trade score 60, one collection, 15 NFTs,
    gains 0, losses 20000 and total value 500 scores 40 + 15 + 20 = 75,
    with the three matching flags in that order, and 75 is in the tier
    HIGH; the address and the whale and shark marks play no part. *)
Theorem wallet_score_75_high (addr : string) (whale_ shark_ : bool) :
  let p := {| address := addr; is_whale := whale_; is_shark := shark_;
              nft_count := Num 15; collection_count := Num 1;
              total_value := Num 500; realized_gains := Num 0;
              realized_losses := Num 20000; washtrade_score := Num 60 |} in
  scoreWallet p =
    (Num 75, ["high_wash_trading_activity"; "poor_trading_performance";
              "highly_concentrated_portfolio"]) /\
  getRiskLevel (fst (scoreWallet p)) = HIGH /\
  (profitLossRatio p <? Num (1 # 2))%js = true /\
  (realized_losses p >? Num 10000)%js = true.
Proof. repeat split. Qed.

Lemma hex_run_spec (n : nat) (s : string) :
  hex_run n s = true <->
  String.length s = n /\ Forall (fun c => is_hex c = true) (list_ascii_of_string s).
Proof.
  revert s. induction n as [|n IH]; intros [|c rest]; simpl.
  - split; [intros _; split; [reflexivity | constructor] | reflexivity].
  - split; [discriminate | intros [H _]; discriminate H].
  - split; [discriminate | intros [H _]; discriminate H].
  - rewrite andb_true_iff, IH. split.
    + intros [Hc [Hlen Hall]]. split; [now rewrite Hlen | now constructor].
    + intros [Hlen Hall]. inversion Hall; subst.
      repeat split; try assumption. now injection Hlen.
Qed.

(** The regular expression of the handler accepts exactly the canonical
    addresses. *)
Lemma address_match_spec (s : string) :
  address_match s = true <-> canonical_address s.
Proof.
  unfold canonical_address. split.
  - intro H. destruct s as [|c0 [|c1 rest]]; try discriminate H.
    + destruct c0 as [[] [] [] [] [] [] [] []]; discriminate H.
    + destruct c0 as [[] [] [] [] [] [] [] []]; try discriminate H.
      destruct c1 as [[] [] [] [] [] [] [] []]; try discriminate H.
      exists rest. apply hex_run_spec in H. tauto.
  - intros [body [-> H]].
    change (address_match ("0x" ++ body)) with (hex_run 40 body).
    now apply hex_run_spec.
Qed.

(** C7: a wallet address that is not [0x] followed by 40 hexadecimal
    characters gets the validation error payload, and the log of upstream
    requests is left as it was: the collaborator is not called. *)
Theorem invalid_address_rejected_before_fetch (client : Client)
    (wallet_address blockchain : string) (include_holdings : bool)
    (log : list UpstreamCall) :
  ~ canonical_address wallet_address ->
  let (response, log') :=
    checkWalletRisk client wallet_address include_holdings blockchain log in
  payload response = InvalidAddress wallet_address /\
  error (payload response) = Some "Invalid wallet address format" /\
  log' = log.
Proof.
  intro Hbad. unfold checkWalletRisk.
  destruct (address_match wallet_address) eqn:E.
  - exfalso. apply Hbad. now apply address_match_spec.
  - cbn. repeat split.
Qed.

Lemma invalid_address_rejected_before_fetch_witness :
  let (response, log') := checkWalletRisk sample_client "0xZZZ" true "ethereum" [] in
  payload response = InvalidAddress "0xZZZ" /\
  error (payload response) = Some "Invalid wallet address format" /\
  log' = [].
Proof.
  apply (invalid_address_rejected_before_fetch sample_client "0xZZZ" "ethereum"
           true []).
  intro H. apply address_match_spec in H. discriminate H.
Defined.

(** A well-formed address does reach the collaborator, once. *)
Lemma valid_address_is_fetched (client : Client)
    (wallet_address blockchain : string) (include_holdings : bool)
    (log : list UpstreamCall) :
  canonical_address wallet_address ->
  snd (checkWalletRisk client wallet_address include_holdings blockchain log) =
    (log ++ [GetWalletProfile wallet_address blockchain])%list.
Proof.
  intro H. apply address_match_spec in H.
  unfold checkWalletRisk, andThen, getWalletProfile. rewrite H. simpl.
  destruct (client wallet_address blockchain) as [[p|]|]; try reflexivity.
  destruct (scoreWallet p). reflexivity.
Qed.

End WalletRiskFacts.

(** ** Metric normaliser *)

Module ClientFacts.
Import ClientAux.

Example parseFloat_string_samples :
  map parseFloat_string
    ["12.5"; "NA"; "  -3.25e2 USD"; "1e"; "5."; ".5"; "."; "-Infinity"; "0x10"; "";
     "1e400"; "0.1"; "9007199254740993"]
  = [Num (25 # 2); NaN; Num (-325); Num 1; Num 5; Num (1 # 2); NaN; NegInf;
     Num 0; NaN; PosInf; double 0.1; Num 9007199254740992].
Proof. vm_compute. reflexivity. Qed.

Example getValue_array_sample (NumberToString : number -> string) :
  getValue NumberToString (JObj [("unit", JStr "usd"); ("value", JArr [JStr "7"; JNull])])
  = Return (Num 7).
Proof. reflexivity. Qed.

(** Of a property that the text gives twice the last value counts. *)
Example getValue_last_value (NumberToString : number -> string) :
  getValue NumberToString (JObj [("value", JStr "12.5"); ("value", JNull)])
  = Return (Num 0).
Proof. reflexivity. Qed.



(** What [getValue] returns is not NaN. *)
Lemma getValue_not_NaN (NumberToString : number -> string) (metric : jsval)
    (n : number) :
  getValue NumberToString metric = Return n -> isNaN n = false.
Proof.
  unfold getValue. destruct (truthy metric); cbn [negb].
  - destruct (prop_value metric) as [v|]; cbn [bind]; [|discriminate].
    destruct (parseFloat NumberToString (js_or v (JStr "0"))) as [value|];
      cbn [bind]; [|discriminate].
    intro H. injection H as <-. now destruct value.
  - intro H. injection H as <-. reflexivity.
Qed.






End ClientFacts.

(** ** getMarketTrends *)

Module MarketTrendsFacts.
Import Market MarketTrends MarketAux.

(** A number equal to 0 compares with any finite number as 0 does. *)
Lemma num_eq_zero_lt (a : number) (k : Q) :
  (a =? Num 0)%js = true ->
  (a <? Num k)%js = Qltb 0 k /\ (Num k <? a)%js = Qltb k 0.
Proof.
  destruct a as [x| | |]; cbn [num_eq]; try discriminate.
  intro H. apply Qeq_bool_iff in H. cbn [num_lt]. unfold Qltb.
  now rewrite H.
Qed.

Lemma zero_changes_neutral (m : MarketMetrics) :
  zero_changes m -> determineMarketSentiment m = neutral.
Proof.
  intros (Hv & Hs & Hw & Hp). unfold determineMarketSentiment, num_gt.
  rewrite !(proj1 (num_eq_zero_lt _ _ Hv)), !(proj2 (num_eq_zero_lt _ _ Hv)).
  rewrite !(proj1 (num_eq_zero_lt _ _ Hs)), !(proj2 (num_eq_zero_lt _ _ Hs)).
  rewrite !(proj1 (num_eq_zero_lt _ _ Hw)), !(proj2 (num_eq_zero_lt _ _ Hw)).
  rewrite !(proj1 (num_eq_zero_lt _ _ Hp)), !(proj2 (num_eq_zero_lt _ _ Hp)).
  reflexivity.
Qed.

Lemma getMarketMetrics_zero_changes (trending : list CollectionData)
    (m : MarketMetrics) :
  getMarketMetrics trending = Some m -> zero_changes m.
Proof.
  unfold getMarketMetrics. destruct trending as [|c rest]; [discriminate|].
  intro H. injection H as <-. repeat split.
Qed.

(** C9: market metrics whose four change fields are 0 have the sentiment
    neutral; the metrics the client computes from the trending
    collections always have these four fields at 0, so the sentiment of
    getMarketTrends is never bullish and never bearish. *)
Theorem zero_change_sentiment_neutral (m : MarketMetrics)
    (trending : list CollectionData) :
  (zero_changes m -> determineMarketSentiment m = neutral) /\
  (forall m', getMarketMetrics trending = Some m' ->
              zero_changes m' /\ determineMarketSentiment m' = neutral) /\
  market_sentiment trending <> Some bullish /\
  market_sentiment trending <> Some bearish.
Proof.
  split; [apply zero_changes_neutral|].
  assert (G : forall m', getMarketMetrics trending = Some m' ->
                         zero_changes m' /\ determineMarketSentiment m' = neutral).
  { intros m' H. pose proof (getMarketMetrics_zero_changes _ _ H) as Z.
    split; [exact Z | now apply zero_changes_neutral]. }
  split; [exact G|].
  unfold market_sentiment.
  destruct (getMarketMetrics trending) as [m'|] eqn:E; cbn [option_map].
  - destruct (G m' eq_refl) as [_ ->]. split; discriminate.
  - split; discriminate.
Qed.

Lemma zero_change_sentiment_neutral_witness :
  determineMarketSentiment flat_market = neutral.
Proof.
  apply (proj1 (zero_change_sentiment_neutral flat_market [])).
  repeat split.
Defined.

End MarketTrendsFacts.

(** ** getInvestmentAdvice *)

Module InvestmentAdviceFacts.
Import InvestmentAdvice InvestmentAdviceAux.

Section Sorting.

Context {A : Type} (compare : A -> A -> number).

Lemma In_insert (x y : A) (l : list A) :
  In y (insert compare x l) <-> y = x \/ In y l.
Proof.
  induction l as [|z l IH]; cbn [insert In].
  - intuition congruence.
  - destruct (compare x z >? Num 0)%js; cbn [In].
    + rewrite IH. tauto.
    + intuition congruence.
Qed.

Lemma In_Array_sort (y : A) (l : list A) :
  In y (Array_sort compare l) <-> In y l.
Proof.
  induction l as [|x l IH]; cbn [Array_sort fold_right In]; [tauto|].
  fold (Array_sort compare l). rewrite In_insert, IH. intuition congruence.
Qed.

End Sorting.

(** Equal scores keep their order, higher scores come first. *)
Example Array_sort_stable :
  Array_sort (fun a b : string * number => (snd b - snd a)%js)
    [("a", Num 15); ("b", Num 90); ("c", Num 15); ("d", Num 90); ("e", Num 50)]
  = [("b", Num 90); ("d", Num 90); ("e", Num 50); ("a", Num 15); ("c", Num 15)].
Proof. reflexivity. Qed.

Example toFixed0_samples :
  map toFixed0 [Num 40; Num (5 # 2); Num (69 # 2); Num 0; PosInf]
  = ["40"; "3"; "35"; "0"; "Infinity"].
Proof. reflexivity. Qed.

(** The loop of [scoreCollections] scores the collections that pass the
    budget test, in their order. *)
Lemma scoreEach_fold (rt hz : string) (budget : number)
    (cs : list CollectionData) (acc : list Scored) :
  fold_left (scoreEach rt hz budget) cs acc =
  (acc ++ map (scoreCollection rt hz) (filter (within budget) cs))%list.
Proof.
  revert acc. induction cs as [|c cs IH]; intro acc; simpl.
  - now rewrite app_nil_r.
  - rewrite IH. unfold scoreEach, within.
    destruct (Collection.floor_price c >? budget)%js; simpl.
    + reflexivity.
    + now rewrite <- app_assoc.
Qed.

Lemma scoreCollections_filter (cs : list CollectionData) (rt hz : string)
    (budget : number) :
  scoreCollections cs rt hz budget =
  Array_sort (fun a b => (score b - score a)%js)
    (map (scoreCollection rt hz) (filter (within budget) cs)).
Proof. unfold scoreCollections. now rewrite scoreEach_fold. Qed.

(** C5: a candidate whose floor price exceeds the budget is dropped by
    scoreCollections (the scored list is the one obtained without it, and
    no scored entry has a floor price above the budget); alone, it leaves
    the recommendations empty, as with budget 1000 and floor price 2000. *)
Theorem over_budget_dropped (before after : list CollectionData)
    (c : CollectionData) (rt hz : string) (budget : number) :
  (Collection.floor_price c >? budget)%js = true ->
  scoreCollections (before ++ c :: after) rt hz budget =
    scoreCollections (before ++ after) rt hz budget /\
  (forall s, In s (scoreCollections (before ++ c :: after) rt hz budget) ->
             (floor_price s >? budget)%js = false) /\
  fst (advise [c] budget rt hz) = [] /\
  (Collection.floor_price c = Num 2000 ->
   fst (advise [c] (Num 1000) rt hz) = []).
Proof.
  intro Hover.
  assert (Hc : within budget c = false) by (unfold within; now rewrite Hover).
  repeat split.
  - rewrite !scoreCollections_filter, !filter_app. simpl. now rewrite Hc.
  - intros s Hs. rewrite scoreCollections_filter in Hs.
    apply In_Array_sort in Hs. apply in_map_iff in Hs.
    destruct Hs as [c' [<- Hc']]. apply filter_In in Hc'.
    destruct Hc' as [_ Hc']. unfold within in Hc'.
    now apply negb_true_iff in Hc'.
  - unfold advise. cbn [fst]. rewrite scoreCollections_filter. simpl.
    rewrite Hc. reflexivity.
  - intro H2000. unfold advise. cbn [fst].
    rewrite scoreCollections_filter. simpl. unfold within. rewrite H2000.
    reflexivity.
Qed.

Lemma over_budget_dropped_witness :
  fst (advise [candidate "a" (Num 2000)] (Num 1000) "moderate" "medium") = [].
Proof.
  refine (proj1 (proj2 (proj2
            (over_budget_dropped [] [] (candidate "a" (Num 2000))
               "moderate" "medium" (Num 1000) _)))).
  reflexivity.
Defined.

(** Every entry of the three tables is truthy, so the fallback of
    [allocationAt] applies past the end of the table only. *)
Lemma allocationAt_fraction (rt : string) (i : nat) :
  allocationAt (allocationStrategy rt) i = fraction rt i.
Proof.
  unfold allocationAt, fraction, allocationStrategy.
  destruct (rt =? "conservative"); [|destruct (rt =? "moderate")];
    do 6 (destruct i as [|i]; [reflexivity|]);
    destruct i; reflexivity.
Qed.

(** The loop over the ranks [k .. k+n-1] appends the slots of the
    candidates at these ranks. *)
Lemma allocate_fold (budget : number) (rt hz : string) (n : nat) :
  forall (k : nat) (done rest : list Scored)
         (acc : list Recommendation) (remaining : number),
    List.length done = k -> (n <= List.length rest)%nat ->
    fst (fold_left (allocate (done ++ rest) budget rt hz) (seq k n)
           (acc, remaining)) =
    (acc ++ slots budget rt hz k (firstn n rest))%list.
Proof.
  induction n as [|n IH]; intros k done rest acc remaining Hk Hn.
  - simpl. now rewrite app_nil_r.
  - destruct rest as [|c rest]; [simpl in Hn; lia|].
    cbn [seq fold_left firstn slots].
    assert (Hc : nth_error (done ++ c :: rest) k = Some c).
    { rewrite nth_error_app2 by lia. now replace (k - List.length done)%nat with 0%nat by lia. }
    unfold allocate at 2. rewrite Hc, allocationAt_fraction.
    replace (done ++ c :: rest)%list with ((done ++ [c]) ++ rest)%list
      by (now rewrite <- app_assoc).
    unfold slot.
    destruct (floor_price c <=? budget * fraction rt k)%js; cbn [fst snd].
    + rewrite (IH (S k) (done ++ [c])%list rest);
        [now rewrite <- app_assoc | rewrite length_app; simpl; lia | simpl in Hn; lia].
    + rewrite (IH (S k) (done ++ [c])%list rest);
        [reflexivity | rewrite length_app; simpl; lia | simpl in Hn; lia].
Qed.

Lemma generatePortfolioRecommendations_by_rank (ranked : list Scored)
    (budget : number) (rt hz : string) :
  generatePortfolioRecommendations ranked budget rt hz =
  allocation_by_rank ranked budget rt hz.
Proof.
  unfold generatePortfolioRecommendations, allocation_by_rank.
  rewrite (allocate_fold budget rt hz _ 0 [] ranked [] budget eq_refl)
    by apply Nat.le_min_l.
  cbn [app]. f_equal.
  destruct (Nat.le_ge_cases (List.length ranked) (maxPositions budget rt)) as [H|H].
  - rewrite Nat.min_l by exact H. now rewrite !firstn_all2 by lia.
  - now rewrite Nat.min_r by exact H.
Qed.

Lemma slots_length (budget : number) (rt hz : string) (ranked : list Scored) :
  forall i, (List.length (slots budget rt hz i ranked) <= List.length ranked)%nat.
Proof.
  induction ranked as [|c rest IH]; intro i; cbn [slots]; [reflexivity|].
  rewrite length_app. specialize (IH (S i)). unfold slot.
  destruct (floor_price c <=? budget * fraction rt i)%js; simpl; lia.
Qed.

Lemma slots_quantity (budget : number) (rt hz : string) (ranked : list Scored)
    (r : Recommendation) :
  forall i, In r (slots budget rt hz i ranked) ->
    recommended_quantity r = Math_floor (budget_allocation r / entry_price r)%js /\
    (entry_price r <=? budget_allocation r)%js = true.
Proof.
  induction ranked as [|c rest IH]; intros i Hr; cbn [slots] in Hr; [contradiction|].
  apply in_app_or in Hr. destruct Hr as [Hr|Hr]; [|exact (IH _ Hr)].
  unfold slot in Hr.
  destruct (floor_price c <=? budget * fraction rt i)%js eqn:E; [|contradiction].
  destruct Hr as [<-|[]]. split; [reflexivity | exact E].
Qed.

Lemma maxPositions_le_8 (budget : number) (rt : string) :
  (1 <= maxPositions budget rt <= 8)%nat.
Proof.
  unfold maxPositions.
  destruct (budget <? Num 1000)%js, (budget <? Num 5000)%js,
    (budget <? Num 20000)%js, (rt =? "conservative"); lia.
Qed.

Lemma allocationStrategy_decreasing (rt : string) :
  decreasing (allocationStrategy rt).
Proof.
  unfold decreasing, allocationStrategy.
  destruct (rt =? "conservative"); [|destruct (rt =? "moderate")];
    repeat (constructor; try reflexivity).
Qed.

(** The lookup table of the position count, by the band of the budget
    and the risk tier. *)
Lemma maxPositions_table (budget : number) (rt : string) :
  ((budget <? Num 1000)%js = true -> maxPositions budget rt = 1%nat) /\
  ((budget >=? Num 1000)%js = true -> (budget <? Num 5000)%js = true ->
   maxPositions budget rt = if rt =? "conservative" then 2%nat else 3%nat) /\
  ((budget >=? Num 5000)%js = true -> (budget <? Num 20000)%js = true ->
   maxPositions budget rt = if rt =? "conservative" then 3%nat else 5%nat) /\
  ((budget >=? Num 20000)%js = true ->
   maxPositions budget rt = if rt =? "conservative" then 5%nat else 8%nat).
Proof.
  unfold maxPositions, num_ge, num_le.
  destruct budget as [b| | |]; cbn [isNaN negb andb num_lt];
    repeat split; try discriminate; try reflexivity.
  - intros ->. reflexivity.
  - intros H1 ->. apply negb_true_iff in H1. rewrite H1. reflexivity.
  - intros H1 ->. apply negb_true_iff in H1.
    assert (H0 : Qltb b 1000 = false).
    { apply Qltb_false. apply Qltb_false in H1. lra. }
    rewrite H0, H1. reflexivity.
  - intros H1. apply negb_true_iff in H1.
    assert (H0 : Qltb b 1000 = false).
    { apply Qltb_false. apply Qltb_false in H1. lra. }
    assert (H5 : Qltb b 5000 = false).
    { apply Qltb_false. apply Qltb_false in H1. lra. }
    rewrite H0, H5, H1. reflexivity.
Qed.

(** C6 (amended): the recommendations are the slots of the ranked
    candidates of rank below the position count of the lookup table
    (1 under a budget of 1000; 8 for a budget of 20000 or more unless the
    tier is conservative, and never more), in rank order; the candidate of
    a rank is included iff its floor price is at most its slice, the
    double-precision product of the budget and the fraction of the rank;
    the fraction is the entry of the decreasing table of the risk tier
    (conservative: 0.4, 0.3, 0.2, 0.1) and 0.1 for a rank past the end of
    the table; the quantity is the floor of the double-precision quotient
    of the allocated budget by the floor price. *)
Theorem allocation_follows_ranks (ranked : list Scored) (budget : number)
    (rt hz : string) :
  let recs := generatePortfolioRecommendations ranked budget rt hz in
  recs = allocation_by_rank ranked budget rt hz /\
  (List.length recs <= Nat.min (List.length ranked) (maxPositions budget rt))%nat /\
  (maxPositions budget rt <= 8)%nat /\
  ((budget <? Num 1000)%js = true -> maxPositions budget rt = 1%nat) /\
  ((budget >=? Num 1000)%js = true -> (budget <? Num 5000)%js = true ->
   maxPositions budget rt = if rt =? "conservative" then 2%nat else 3%nat) /\
  ((budget >=? Num 5000)%js = true -> (budget <? Num 20000)%js = true ->
   maxPositions budget rt = if rt =? "conservative" then 3%nat else 5%nat) /\
  ((budget >=? Num 20000)%js = true ->
   maxPositions budget rt = if rt =? "conservative" then 5%nat else 8%nat) /\
  (forall r, In r recs ->
     recommended_quantity r = Math_floor (budget_allocation r / entry_price r)%js /\
     (entry_price r <=? budget_allocation r)%js = true) /\
  allocationStrategy "conservative" =
    [double 0.4; double 0.3; double 0.2; double 0.1] /\
  decreasing (allocationStrategy rt) /\
  (forall i, (List.length (allocationStrategy rt) <= i)%nat ->
             fraction rt i = double 0.1).
Proof.
  cbv zeta. rewrite generatePortfolioRecommendations_by_rank.
  unfold allocation_by_rank.
  split; [reflexivity|]. split.
  { etransitivity; [apply slots_length|]. rewrite length_firstn. lia. }
  split; [apply maxPositions_le_8|].
  destruct (maxPositions_table budget rt) as (T1 & T2 & T3 & T4).
  split; [exact T1|]. split; [exact T2|]. split; [exact T3|].
  split; [exact T4|]. split.
  { intros r Hr. exact (slots_quantity _ _ _ _ _ _ Hr). }
  split; [reflexivity|]. split; [apply allocationStrategy_decreasing|].
  intros i Hi. unfold fraction. now apply nth_overflow.
Qed.

Lemma allocation_follows_ranks_witness :
  maxPositions (Num 25000) "aggressive" = 8%nat /\
  List.length
    (generatePortfolioRecommendations
       (scoreCollections six_candidates "aggressive" "medium" (Num 25000))
       (Num 25000) "aggressive" "medium") = 6%nat.
Proof.
  pose proof (allocation_follows_ranks
                (scoreCollections six_candidates "aggressive" "medium" (Num 25000))
                (Num 25000) "aggressive" "medium") as H.
  cbv zeta in H. destruct H as (Hrecs & _ & _ & _ & _ & _ & H8 & _).
  split; [exact (H8 eq_refl)|]. rewrite Hrecs. vm_compute. reflexivity.
Defined.

(** The slice is the product as the doubles give it: of a budget of 1300
    the moderate tier allocates 454.99999999999994 to the first rank, not
    455, and a candidate of floor price 455 is left out. *)
Example slice_is_rounded :
  (Num 1300 * double 0.35)%js = Num (8004444650209279 # 17592186044416) /\
  (Num 455 <=? Num 1300 * double 0.35)%js = false /\
  fst (advise [candidate "a" (Num 455)] (Num 1300) "moderate" "medium") = [].
Proof. vm_compute. repeat split. Qed.

(** C6 as stated fails past the end of a table: for the moderate tier and
    a budget of 20000 the sixth position gets the fraction 0.1, which is
    no entry of the five-entry table and is above the 0.05 of the fifth. *)
Lemma sixth_position_leaves_the_table :
  let recs := fst (advise six_candidates (Num 20000) "moderate" "medium") in
  map allocation recs = ["35%"; "25%"; "20%"; "15%"; "5%"; "10%"] /\
  map budget_allocation recs =
    [Num 7000; Num 5000; Num 4000; Num 3000; Num 1000; Num 2000] /\
  nth_error (allocationStrategy "moderate") 5 = None /\
  ~ decreasing (map budget_allocation recs).
Proof.
  cbv zeta. split; [reflexivity|]. split; [reflexivity|]. split; [reflexivity|].
  intro H. vm_compute in H.
  repeat match goal with
  | H : StronglySorted _ (_ :: _) |- _ => inversion H; clear H; subst
  | H : Forall _ (_ :: _) |- _ => inversion H; clear H; subst
  end.
  discriminate.
Qed.

(** C10: with no recommendation the portfolio metrics are still produced:
    no position, nothing allocated, diversification 0 and risk LOW; the
    two divisions by the length are 0/0, which is NaN and compares false
    with both risk thresholds. *)
Theorem empty_portfolio_metrics (rt : string) :
  let m := calculatePortfolioMetrics [] rt in
  total_positions m = Num 0 /\
  total_allocated m = Num 0 /\
  diversification_score m = Num 0 /\
  risk_score m = LOW /\
  average_position_size m = NaN /\
  (of_nat 0 / of_nat 0)%js = NaN.
Proof. repeat split. Qed.

End InvestmentAdviceFacts.

(** * Further properties of the scorers *)

Module ScorerFacts.
Import ScorerAux.

(** The safety score is explained by the risk tags reported with it: it
    is 100 less the penalty of each tag.  It lies between 25 and 100, it
    is 100 exactly when no tag is reported, and the recommendation is SAFE
    from 80 on, CAUTION from 60 on and HIGH_RISK below. *)
Theorem safety_score_explained (c : CollectionData)
    (w : option WashTradingData) :
  let a := AnalyzeCollection.analyze c w in
  AnalyzeCollection.safety_score a = score_of_risks (AnalyzeCollection.risks a) /\
  (Num 25 <=? AnalyzeCollection.safety_score a)%js = true /\
  (AnalyzeCollection.safety_score a <=? Num 100)%js = true /\
  (AnalyzeCollection.risks a = [] <-> AnalyzeCollection.safety_score a = Num 100) /\
  (List.length (AnalyzeCollection.risks a) <= 4)%nat.
Proof.
  cbv zeta. unfold AnalyzeCollection.analyze.
  generalize (owner_count c <? Num 100)%js (owner_count c <? Num 500)%js
    (volume_change_24h c <? Num (-50))%js
    (Math_abs (floor_price_change_24h c) >? Num 30)%js.
  intros o1 o2 v f.
  assert (G : forall hi mid : bool,
    let st1 :=
      if o1 then AnalyzeCollection.penalise (Num 100, []) (Num 20) "low_holder_count"
      else if o2 then AnalyzeCollection.penalise (Num 100, []) (Num 10) "moderate_holder_count"
      else (Num 100, []) in
    let st2 :=
      if hi then AnalyzeCollection.penalise st1 (Num 30) "high_wash_trading"
      else if mid then AnalyzeCollection.penalise st1 (Num 15) "moderate_wash_trading"
      else st1 in
    let st3 :=
      if v then AnalyzeCollection.penalise st2 (Num 15) "sharp_volume_decline" else st2 in
    let st4 :=
      if f then AnalyzeCollection.penalise st3 (Num 10) "high_price_volatility" else st3 in
    fst st4 = score_of_risks (snd st4) /\
    (Num 25 <=? fst st4)%js = true /\ (fst st4 <=? Num 100)%js = true /\
    (snd st4 = [] <-> fst st4 = Num 100) /\ (List.length (snd st4) <= 4)%nat).
  { intros hi mid. destruct o1, o2, hi, mid, v, f; vm_compute;
      (split; [reflexivity|]); (split; [reflexivity|]); (split; [reflexivity|]);
      (split; [split; intro H; first [reflexivity | discriminate H] | lia]). }
  destruct w as [m|]; cbn [AnalyzeCollection.safety_score AnalyzeCollection.risks].
  - exact (G _ _).
  - exact (G false false).
Qed.

Lemma num_gt_10_not_zero (n : number) :
  (n >? Num 10)%js = true -> (n =? Num 0)%js = false.
Proof.
  destruct n as [q| | |]; cbn; try reflexivity; try discriminate.
  intro H. destruct (Qeq_bool q 0) eqn:E; [|reflexivity].
  qprop. lra.
Qed.

(** The wallet risk score is one of the sums the four checks allow: it
    lies between 0 and 75, because a portfolio is never both concentrated
    (more than 10 NFTs) and inconsistent (no NFT).  The tier HIGH is
    reached exactly by a wallet with the high wash-trading flag and the
    poor-performance flag and one of the two portfolio flags. *)
Theorem wallet_score_range (p : Wallet.WalletProfile) :
  let (score, flags) := WalletRisk.scoreWallet p in
  (Num 0 <=? score)%js = true /\ (score <=? Num 75)%js = true /\
  (WalletRisk.includes "highly_concentrated_portfolio" flags
   && WalletRisk.includes "inconsistent_portfolio_data" flags = false) /\
  (WalletRisk.getRiskLevel score = WalletRisk.HIGH <->
   WalletRisk.includes "high_wash_trading_activity" flags
   && WalletRisk.includes "poor_trading_performance" flags
   && (WalletRisk.includes "highly_concentrated_portfolio" flags
       || WalletRisk.includes "inconsistent_portfolio_data" flags) = true).
Proof.
  unfold WalletRisk.scoreWallet.
  pose proof (num_gt_10_not_zero (Wallet.nft_count p)) as X.
  generalize (Wallet.washtrade_score p >? Num 50)%js
    (Wallet.washtrade_score p >? Num 20)%js
    ((WalletRisk.profitLossRatio p <? Num (1 # 2))%js
     && (Wallet.realized_losses p >? Num 10000)%js)
    (Wallet.collection_count p =? Num 1)%js
    (Wallet.total_value p >? Num 0)%js.
  intros w50 w20 poor one value.
  destruct (Wallet.nft_count p >? Num 10)%js;
    [rewrite (X eq_refl)|destruct (Wallet.nft_count p =? Num 0)%js];
    destruct w50, w20, poor, one, value; vm_compute;
    (repeat split; intro H; first [reflexivity | discriminate H]).
Qed.

End ScorerFacts.

(** * Further properties of the market tools *)

Module SentimentFacts.
Import Market MarketTrends SentimentAux.

(** The score that [determineMarketSentiment] accumulates is the sum of
    the points of the four changes. *)
Lemma determineMarketSentiment_points (m : MarketMetrics) :
  determineMarketSentiment m = classify (sentiment_points m).
Proof.
  unfold determineMarketSentiment, sentiment_points, volume_points, change_points.
  destruct (volume_change_24h m >? Num 20)%js;
    [|destruct (volume_change_24h m >? Num 0)%js;
      [|destruct (volume_change_24h m <? Num (-20))%js;
        [|destruct (volume_change_24h m <? Num 0)%js]]];
    (destruct (sales_change_24h m >? Num 15)%js;
     [|destruct (sales_change_24h m <? Num (-15))%js]);
    (destruct (active_wallets_change m >? Num 10)%js;
     [|destruct (active_wallets_change m <? Num (-10))%js]);
    (destruct (average_price_change m >? Num 10)%js;
     [|destruct (average_price_change m <? Num (-10))%js]);
    reflexivity.
Qed.

(** Comparing the opposite of a number with a threshold is comparing the
    number with the opposite threshold. *)
Lemma num_neg_lt (x : number) (t t' : Q) :
  (t' == - t)%Q ->
  (num_neg x <? Num t)%js = (Num t' <? x)%js /\
  (Num t <? num_neg x)%js = (x <? Num t')%js.
Proof.
  intro Ht. destruct x as [q| | |]; cbn; try (split; reflexivity).
  unfold Qltb. rewrite (Qred_correct (- q)), Ht. split; f_equal.
  - destruct (Qle_bool t (- q)) eqn:E1, (Qle_bool q (- t)) eqn:E2; try reflexivity;
      exfalso.
    + apply Qle_bool_iff in E1.
      assert (~ (q <= - t)%Q)
        by (intro L; apply Qle_bool_iff in L; congruence). lra.
    + apply Qle_bool_iff in E2.
      assert (~ (t <= - q)%Q)
        by (intro L; apply Qle_bool_iff in L; congruence). lra.
  - destruct (Qle_bool (- q) t) eqn:E1, (Qle_bool (- t) q) eqn:E2; try reflexivity;
      exfalso.
    + apply Qle_bool_iff in E1.
      assert (~ (- t <= q)%Q)
        by (intro L; apply Qle_bool_iff in L; congruence). lra.
    + apply Qle_bool_iff in E2.
      assert (~ (- q <= t)%Q)
        by (intro L; apply Qle_bool_iff in L; congruence). lra.
Qed.

Lemma change_points_reverse (t : Q) (x : number) :
  (0 <= t)%Q ->
  change_points t (- t) (num_neg x) = (- change_points t (- t) x)%Z.
Proof.
  intro Ht. unfold change_points, num_gt.
  destruct (num_neg_lt x t (- t) (Qeq_refl _)) as [_ ->].
  destruct (num_neg_lt x (- t) t) as [-> _]; [symmetry; apply Qopp_involutive|].
  destruct (x <? Num (- t))%js eqn:E1, (Num t <? x)%js eqn:E2; try reflexivity.
  exfalso. destruct x as [q| | |]; cbn in E1, E2; try discriminate.
  qprop. lra.
Qed.

Lemma volume_points_reverse (x : number) :
  volume_points (num_neg x) = (- volume_points x)%Z.
Proof.
  unfold volume_points, num_gt.
  destruct (num_neg_lt x 20 (-20)) as [N1 N2]; [reflexivity|].
  destruct (num_neg_lt x 0 0) as [Z1 Z2]; [reflexivity|].
  destruct (num_neg_lt x (-20) 20) as [P1 P2]; [reflexivity|].
  rewrite N2, Z2, P1, Z1.
  destruct x as [q| | |]; cbn; try reflexivity.
  destruct (Qltb q (-20)) eqn:E1, (Qltb q 0) eqn:E2, (Qltb 20 q) eqn:E3,
    (Qltb 0 q) eqn:E4; try reflexivity; exfalso; qprop; lra.
Qed.

(** Reversing the four changes of a market reverses its sentiment: a
    market is bullish exactly when the reversed market is bearish. *)
Theorem sentiment_reverses (m : MarketMetrics) :
  determineMarketSentiment (reverse_changes m) =
  opposite (determineMarketSentiment m).
Proof.
  rewrite !determineMarketSentiment_points.
  unfold sentiment_points, reverse_changes.
  cbn [volume_change_24h sales_change_24h active_wallets_change
       average_price_change].
  rewrite volume_points_reverse.
  rewrite (change_points_reverse 15), !(change_points_reverse 10)
    by (unfold Qle; simpl; lia).
  change (Qopp 15) with (-15)%Q. change (Qopp 10) with (-10)%Q.
  set (z := (volume_points (volume_change_24h m)
             + change_points 15 (-15) (sales_change_24h m)
             + change_points 10 (-10) (active_wallets_change m)
             + change_points 10 (-10) (average_price_change m))%Z).
  match goal with
  | |- classify ?y = _ => replace y with (- z)%Z by (unfold z; lia)
  end.
  clearbody z. unfold classify, opposite.
  destruct (Z.leb_spec 3 (- z)), (Z.leb_spec (- z) (-3)),
    (Z.leb_spec 3 z), (Z.leb_spec z (-3)); try reflexivity; exfalso; lia.
Qed.

End SentimentFacts.

(** * Further properties of the portfolio advisor *)

Module RankingFacts.
Import RankingAux.

Section ByKey.

Context {A : Type} (key : A -> number).


(** On whole keys the comparator is positive exactly when its second
    argument has the larger key: the difference is exact. *)
Lemma compare_whole (a b : A) (x y : Q) :
  whole (key a) -> whole (key b) ->
  key a = Num x -> key b = Num y ->
  (descending key a b >? Num 0)%js = Qltb x y.
Proof.
  intros (za & Ea & Ba) (zb & Eb & Bb) Ha Hb. unfold descending.
  rewrite Ea in Ha. rewrite Eb in Hb. injection Ha as <-. injection Hb as <-.
  rewrite Ea, Eb.
  change (2 ^ 52)%Z with 4503599627370496%Z in Ba, Bb.
  rewrite num_sub_whole
    by (change (2 ^ 53)%Z with 9007199254740992%Z; lia).
  unfold num_gt. cbn [num_lt]. unfold Qltb, Qle_bool, inject_Z. cbn [Qnum Qden].
  f_equal.
  destruct (Z.leb_spec ((zb - za) * 1) (0 * 1)), (Z.leb_spec (zb * 1) (za * 1));
    try reflexivity; exfalso; lia.
Qed.

Lemma insert_Permutation (x : A) (l : list A) :
  Permutation (insert (descending key) x l) (x :: l).
Proof.
  induction l as [|y l IH]; cbn [insert]; [reflexivity|].
  destruct (descending key x y >? Num 0)%js; [|reflexivity].
  rewrite IH. apply perm_swap.
Qed.

Lemma Array_sort_Permutation (l : list A) :
  Permutation (Array_sort (descending key) l) l.
Proof.
  induction l as [|x l IH]; cbn [Array_sort fold_right]; [reflexivity|].
  fold (Array_sort (descending key) l). rewrite insert_Permutation. now constructor.
Qed.

Lemma whole_key (a : A) : whole (key a) -> exists q, key a = Num q.
Proof. intros (z & E & _). eauto. Qed.

Lemma insert_sorted (x : A) (l : list A) :
  whole (key x) -> whole_keys key l ->
  StronglySorted (ranks_before key) l ->
  StronglySorted (ranks_before key) (insert (descending key) x l).
Proof.
  intros Hx Hl Hs. destruct (whole_key x Hx) as [qx Ex].
  induction Hs as [|y l Hs IH Hy]; cbn [insert].
  - repeat constructor.
  - inversion Hl as [|? ? Fy Fl]; subst.
    destruct (whole_key y Fy) as [qy Ey].
    rewrite (compare_whole x y qx qy Hx Fy Ex Ey).
    destruct (Qltb qx qy) eqn:E.
    + constructor; [exact (IH Fl)|].
      apply Forall_forall. intros z Hz.
      apply (Permutation_in _ (insert_Permutation x l)) in Hz.
      destruct Hz as [<-|Hz].
      * unfold ranks_before. rewrite Ex, Ey. cbn.
        apply negb_true_iff. qprop. lra.
      * rewrite Forall_forall in Hy. exact (Hy z Hz).
    + constructor; [now constructor|].
      constructor.
      * unfold ranks_before. rewrite Ex, Ey. cbn. now rewrite E.
      * rewrite Forall_forall in Hy, Fl |- *. intros z Hz.
        specialize (Hy z Hz). destruct (whole_key z (Fl z Hz)) as [qz Ez].
        unfold ranks_before in *. rewrite Ex, Ey, Ez in *. cbn in *.
        apply negb_true_iff in Hy. apply negb_true_iff. qprop. lra.
Qed.

Lemma Array_sort_sorted (l : list A) :
  whole_keys key l -> StronglySorted (ranks_before key) (Array_sort (descending key) l).
Proof.
  induction 1 as [|x l Hx Hl IH]; cbn [Array_sort fold_right]; [constructor|].
  fold (Array_sort (descending key) l). apply insert_sorted; [exact Hx| |exact IH].
  unfold whole_keys. rewrite Forall_forall in Hl |- *. intros z Hz.
  apply Hl. exact (Permutation_in _ (Array_sort_Permutation l) Hz).
Qed.

(** Insertion leaves the entries of a given key in their order. *)
Lemma insert_stable (v : number) (x : A) (l : list A) :
  whole (key x) -> whole_keys key l ->
  filter (fun a => (key a =? v)%js) (insert (descending key) x l) =
  filter (fun a => (key a =? v)%js) (x :: l).
Proof.
  intros Hx Hl. destruct (whole_key x Hx) as [qx Ex].
  induction Hl as [|y l Fy Fl IH]; cbn [insert]; [reflexivity|].
  destruct (whole_key y Fy) as [qy Ey].
  rewrite (compare_whole x y qx qy Hx Fy Ex Ey).
  destruct (Qltb qx qy) eqn:E; [|reflexivity].
  cbn [filter] in *. rewrite IH.
  destruct (key x =? v)%js eqn:Vx; [|reflexivity].
  destruct (key y =? v)%js eqn:Vy; [|reflexivity].
  exfalso. rewrite Ex in Vx. rewrite Ey in Vy.
  destruct v as [qv| | |]; cbn in Vx, Vy; try discriminate. qprop. lra.
Qed.

Lemma Array_sort_stable_by_key (v : number) (l : list A) :
  whole_keys key l ->
  filter (fun a => (key a =? v)%js) (Array_sort (descending key) l) =
  filter (fun a => (key a =? v)%js) l.
Proof.
  induction 1 as [|x l Hx Hl IH]; cbn [Array_sort fold_right]; [reflexivity|].
  fold (Array_sort (descending key) l). rewrite insert_stable.
  - cbn [filter]. now rewrite IH.
  - exact Hx.
  - unfold whole_keys. rewrite Forall_forall in Hl |- *. intros z Hz.
    apply Hl. exact (Permutation_in _ (Array_sort_Permutation l) Hz).
Qed.

End ByKey.

End RankingFacts.

Module AdvisorFacts.
Import InvestmentAdvice InvestmentAdviceAux RankingAux AdvisorAux.

(** The score of a candidate is a whole number between 0 and 100, and at
    most 90 unless the risk tolerance is conservative. *)
Theorem scoreCollection_range (rt hz : string) (c : CollectionData) :
  exists z : Z,
    score (scoreCollection rt hz c) = Num (inject_Z z) /\
    (0 <= z <= 100)%Z /\
    ((rt =? "conservative") = false -> (z <= 90)%Z).
Proof.
  unfold scoreCollection. cbn [score].
  generalize (owner_count c >? Num 5000)%js (owner_count c >? Num 2000)%js
    (Collection.volume_change_24h c >? Num 20)%js
    (Collection.volume_change_24h c >? Num 0)%js
    (Math_abs (floor_price_change_24h c) <? Num 10)%js
    (Collection.sales_24h c >? Num 100)%js (Collection.sales_24h c >? Num 50)%js
    ((hz =? "long") && (owner_count c >? Num 3000)%js)
    ((hz =? "short") && (Collection.volume_change_24h c >? Num 30)%js).
  intros o5 o2 v20 v0 stable s100 s50 long short.
  destruct (rt =? "conservative");
    (destruct o5; [|destruct o2]);
    (destruct v20; [|destruct v0]); try destruct v0;
    destruct stable;
    (destruct s100; [|destruct s50]);
    (destruct long; [|destruct short]);
    vm_compute;
    (eexists; split; [reflexivity|]; split; [split; discriminate|]);
    intro H; first [discriminate H | discriminate].
Qed.

Lemma award_points (k p : Z) (st : number * list string) (points : number)
    (factor : string) :
  points_upto k (fst st) -> points_upto p points -> (k + p < 2 ^ 52)%Z ->
  points_upto (k + p) (fst (award st points factor)).
Proof.
  intros (x & Ex & Bx) (y & Ey & By) B. unfold award. cbn [fst].
  rewrite Ex, Ey. change (2 ^ 52)%Z with 4503599627370496%Z in B.
  rewrite num_add_whole by (change (2 ^ 53)%Z with 9007199254740992%Z; lia).
  exists (x + y)%Z. split; [reflexivity | lia].
Qed.

Lemma points_upto_more (k k' : Z) (n : number) :
  points_upto k n -> (k <= k')%Z -> points_upto k' n.
Proof. intros (z & E & B) H. exists z. split; [exact E | lia]. Qed.

(** Every score is a whole number of a few bits, so the differences that
    the comparator of the sort takes are exact. *)
Lemma scoreCollection_whole (rt hz : string) (c : CollectionData) :
  whole (score (scoreCollection rt hz c)).
Proof.
  assert (H : points_upto (0 + 30 + 20 + 25 + 20 + 15)
                (score (scoreCollection rt hz c))).
  { unfold scoreCollection. cbn [score].
    repeat match goal with
    | |- points_upto _ (fst (if ?b then _ else _)) => destruct b
    | |- points_upto _ (fst (award _ (if ?b then _ else _) _)) => destruct b
    | |- points_upto (_ + _) (fst (award _ _ _)) =>
        apply award_points;
          [| eexists; split; [reflexivity | lia] | reflexivity]
    | |- points_upto (?k + ?p) _ =>
        apply (points_upto_more k (k + p)); [|lia]
    | |- points_upto _ (fst (Num 0, _)) =>
        exists 0%Z; split; [reflexivity | lia]
    end. }
  destruct H as (z & E & B). exists z. split; [exact E|].
  change (2 ^ 52)%Z with 4503599627370496%Z. lia.
Qed.

(** The scored list is a ranking: it holds the scored candidates that
    pass the budget test, each once, in descending order of score, and
    candidates of equal score keep the order the client delivered them
    in. *)
Theorem scoreCollections_ranked (cs : list CollectionData) (rt hz : string)
    (budget : number) :
  let scored := map (scoreCollection rt hz) (filter (within budget) cs) in
  let ranked := scoreCollections cs rt hz budget in
  Permutation ranked scored /\
  StronglySorted (ranks_before score) ranked /\
  (forall v, filter (fun s => (score s =? v)%js) ranked =
             filter (fun s => (score s =? v)%js) scored).
Proof.
  cbv zeta. rewrite InvestmentAdviceFacts.scoreCollections_filter.
  assert (F : whole_keys score
                (map (scoreCollection rt hz) (filter (within budget) cs))).
  { unfold whole_keys. apply Forall_forall. intros s Hs.
    apply in_map_iff in Hs. destruct Hs as [c [<- _]].
    apply scoreCollection_whole. }
  split; [apply (RankingFacts.Array_sort_Permutation score)|].
  split; [exact (RankingFacts.Array_sort_sorted score _ F)|].
  intro v. exact (RankingFacts.Array_sort_stable_by_key score v _ F).
Qed.

Lemma recommended_quantity_floor (ranked : list Scored) (budget : number)
    (rt hz : string) (r : Recommendation) :
  In r (generatePortfolioRecommendations ranked budget rt hz) ->
  recommended_quantity r = Math_floor (budget_allocation r / entry_price r)%js /\
  (entry_price r <=? budget_allocation r)%js = true.
Proof.
  rewrite InvestmentAdviceFacts.generatePortfolioRecommendations_by_rank.
  apply InvestmentAdviceFacts.slots_quantity.
Qed.

(** A recommendation at a positive price buys at least one item: its
    quantity is a whole number of at least 1, or Infinity when the
    quotient of the allocated budget by the price is beyond the doubles. *)
Theorem recommended_quantity_at_least_one (ranked : list Scored)
    (budget : number) (rt hz : string) (r : Recommendation) (p : Q) :
  In r (generatePortfolioRecommendations ranked budget rt hz) ->
  entry_price r = Num p -> (0 < p)%Q ->
  recommended_quantity r = PosInf \/
  exists n : Z, recommended_quantity r = Num (inject_Z n) /\ (1 <= n)%Z.
Proof.
  intros Hr Hp Hpos.
  destruct (recommended_quantity_floor _ _ _ _ _ Hr) as [Hq Hle].
  rewrite Hp in Hq, Hle. rewrite Hq. clear Hq.
  destruct (budget_allocation r) as [a| | |]; try discriminate Hle.
  - unfold num_le in Hle. cbn [isNaN negb andb num_lt] in Hle.
    apply negb_true_iff in Hle. qprop.
    assert (Hz : Qeq_bool p 0 = false).
    { destruct (Qeq_bool p 0) eqn:E; [|reflexivity]. qprop. lra. }
    unfold num_div. rewrite Hz.
    assert (H1 : (1 <= a / p)%Q) by (apply Qle_shift_div_l; lra).
    destruct (round64_ge_1 _ H1) as [-> | (v & -> & Hv)]; [now left | right].
    cbn [Math_floor]. exists (Qfloor v). split; [reflexivity|].
    change 1%Z with (Qfloor 1). now apply Qfloor_resp_le.
  - left. unfold num_div.
    assert (E : Qltb p 0 = false) by (qprop; lra).
    rewrite E. reflexivity.
Qed.

Lemma recommended_quantity_at_least_one_witness :
  recommended_quantity affordable_pick = PosInf \/
  exists n : Z,
    recommended_quantity affordable_pick = Num (inject_Z n) /\ (1 <= n)%Z.
Proof.
  apply (recommended_quantity_at_least_one
           [scoreCollection "moderate" "medium" (candidate "a" (Num 100))]
           (Num 1000) "moderate" "medium" affordable_pick 100).
  - vm_compute. left. reflexivity.
  - reflexivity.
  - reflexivity.
Defined.

(** The quotient is rounded before its floor is taken: with a budget of
    3 an aggressive investor is allocated 0.8999999999999999 for a first
    candidate of floor price 0.3 (the double nearest to it) and is
    recommended 3 items, whose exact cost is above the allocated budget. *)
Example quantity_is_rounded :
  let recs :=
    generatePortfolioRecommendations
      [scoreCollection "aggressive" "medium" (candidate "a" (double 0.3))]
      (Num 3) "aggressive" "medium" in
  map recommended_quantity recs = [Num 3] /\
  map (fun r =>
         match budget_allocation r, entry_price r with
         | Num a, Num p => Qltb a (3 * p)
         | _, _ => false
         end) recs = [true].
Proof. vm_compute. split; reflexivity. Qed.

(** A recommendation at the price 0 with a positive allocated budget has
    the quantity Infinity: the division by the floor price is not
    guarded. *)
Theorem free_collection_quantity_infinite (ranked : list Scored)
    (budget : number) (rt hz : string) (r : Recommendation) :
  In r (generatePortfolioRecommendations ranked budget rt hz) ->
  (entry_price r =? Num 0)%js = true ->
  (budget_allocation r >? Num 0)%js = true ->
  recommended_quantity r = PosInf.
Proof.
  intros Hr Hp Ha.
  destruct (recommended_quantity_floor _ _ _ _ _ Hr) as [-> _].
  destruct (entry_price r) as [p| | |]; cbn in Hp; try discriminate.
  destruct (budget_allocation r) as [a| | |]; cbn in Ha; try discriminate.
  - unfold num_div, inf_signed. rewrite Hp.
    unfold num_gt in Ha. cbn [num_lt] in Ha. rewrite Ha.
    destruct (Qeq_bool a 0) eqn:E; [|reflexivity].
    exfalso. qprop. lra.
  - unfold num_div. destruct (Qltb p 0) eqn:E; [|reflexivity].
    exfalso. qprop. lra.
Qed.

Lemma free_collection_quantity_infinite_witness :
  recommended_quantity free_pick = PosInf.
Proof.
  apply (free_collection_quantity_infinite
           [scoreCollection "moderate" "medium" (candidate "a" (Num 0))]
           (Num 1000) "moderate" "medium" free_pick).
  - vm_compute. left. reflexivity.
  - reflexivity.
  - reflexivity.
Defined.

Lemma conservative_factors (hz : string) (c : CollectionData) :
  includes "high_momentum" (factors (scoreCollection "conservative" hz c)) = false.
Proof.
  unfold scoreCollection. cbn [factors].
  change ("conservative" =? "conservative") with true. cbv iota.
  generalize (owner_count c >? Num 5000)%js (owner_count c >? Num 2000)%js
    (Collection.volume_change_24h c >? Num 20)%js
    (Collection.volume_change_24h c >? Num 0)%js
    (Math_abs (floor_price_change_24h c) <? Num 10)%js
    (Collection.sales_24h c >? Num 100)%js (Collection.sales_24h c >? Num 50)%js
    ((hz =? "long") && (owner_count c >? Num 3000)%js)
    ((hz =? "short") && (Collection.volume_change_24h c >? Num 30)%js).
  intros o5 o2 v20 v0 stable s100 s50 long short.
  destruct o5, o2, v20, v0, stable, s100, s50, long, short; reflexivity.
Qed.

Lemma slots_origin (budget : number) (rt hz : string) (ranked : list Scored)
    (r : Recommendation) :
  forall i, In r (slots budget rt hz i ranked) ->
    exists s, In s ranked /\ risk_level r = getRiskLevel s rt.
Proof.
  induction ranked as [|c rest IH]; intros i Hr; cbn [slots] in Hr; [contradiction|].
  apply in_app_or in Hr. destruct Hr as [Hr|Hr].
  - unfold slot in Hr.
    destruct (floor_price c <=? budget * fraction rt i)%js; [|contradiction].
    destruct Hr as [<-|[]]. exists c. split; [now left | reflexivity].
  - destruct (IH _ Hr) as [s [Hs E]]. exists s. split; [now right | exact E].
Qed.

(** A conservative investor is never shown a HIGH-risk position: the
    momentum factor that makes a position HIGH is not awarded under a
    conservative risk tolerance, so no recommendation is HIGH and the risk
    of the portfolio is LOW. *)
Theorem conservative_never_high_risk (cs : list CollectionData)
    (budget : number) (hz : string) :
  let (recs, pm) := advise cs budget "conservative" hz in
  Forall (fun r => risk_level r <> HIGH) recs /\ risk_score pm = LOW.
Proof.
  unfold advise.
  set (recs := generatePortfolioRecommendations _ _ _ _).
  assert (F : Forall (fun r => risk_level r <> HIGH) recs).
  { apply Forall_forall. intros r Hr. unfold recs in Hr.
    rewrite InvestmentAdviceFacts.generatePortfolioRecommendations_by_rank in Hr.
    unfold allocation_by_rank in Hr.
    destruct (slots_origin _ _ _ _ _ _ Hr) as [s [Hs ->]].
    assert (Hs' : In s (scoreCollections cs "conservative" hz budget))
      by (rewrite <- (firstn_skipn (maxPositions budget "conservative"));
          apply in_or_app; now left).
    clear Hs. rename Hs' into Hs.
    rewrite InvestmentAdviceFacts.scoreCollections_filter in Hs.
    apply InvestmentAdviceFacts.In_Array_sort in Hs.
    apply in_map_iff in Hs. destruct Hs as [c [<- _]].
    unfold getRiskLevel. rewrite conservative_factors.
    destruct (includes "price_stability" _ && includes "strong_community" _);
      discriminate. }
  split; [exact F|].
  unfold calculatePortfolioMetrics. cbn [risk_score].
  assert (E : filter (fun r => match risk_level r with HIGH => true | _ => false end)
                recs = []).
  { clearbody recs. induction F as [|r l Hr _ IH]; [reflexivity|].
    cbn [filter]. destruct (risk_level r); try exact IH. now contradiction Hr. }
  rewrite E. cbn [List.length].
  destruct (List.length recs) as [|n]; [reflexivity|].
  unfold of_nat, num_div.
  destruct (Qeq_bool (inject_Z (Z.of_nat (S n))) 0) eqn:Z0.
  - exfalso. qprop. unfold Qeq in Z0. cbn in Z0. lia.
  - assert (Q0 : round64 (inject_Z (Z.of_nat 0) / inject_Z (Z.of_nat (S n)))
                 = Num 0).
    { unfold round64, Qdiv, Qmult. cbn [Z.of_nat inject_Z Qnum Z.mul].
      reflexivity. }
    rewrite Q0. reflexivity.
Qed.

End AdvisorFacts.

(** * Further properties of the upstream client *)

Module UnleashClientFacts.
Import UnleashClient UnleashClientAux.

(** Take apart a computation that is known to return: each bound step
    returned, and each test went one way. *)
Ltac returned H :=
  repeat first
    [ discriminate H
    | match type of H with
      | context [bind ?m _] => destruct m eqn:?; cbn [bind] in H
      end
    | match type of H with
      | context [match ?x with Some _ => _ | None => _ end] =>
          destruct x as [[? ?]|]
      end
    | match type of H with
      | context [if ?b then _ else _] => destruct b eqn:?
      end ].

Lemma washTradingOf_zero (NumberToString : number -> string)
    (StringToNumber : string -> number) (data : jsval) (w : WashTrading) :
  washTradingOf NumberToString StringToNumber data = Return w ->
  wash_trading_percentage w = Num 0 /\ total_volume w = Num 0 /\
  total_sales w = Num 0.
Proof.
  unfold washTradingOf. intro H.
  destruct (get data "data_points") as [data_points|]; cbn [bind] in H;
    [|discriminate H].
  match type of H with
  | bind ?m _ = _ => destruct m as [[[latestData values]|]|]; cbn [bind] in H
  end; [| |discriminate H].
  - returned H. injection H as <-. repeat split.
  - destruct (get data "metrics") as [metrics|]; cbn [bind] in H;
      [|discriminate H].
    destruct (truthy metrics).
    + returned H. injection H as <-. repeat split.
    + injection H as <-. repeat split.
Qed.

Lemma getCollectionWashTrading_zero (NumberToString : number -> string)
    (StringToNumber : string -> number) (response : result jsval)
    (w : WashTrading) :
  getCollectionWashTrading NumberToString StringToNumber response = Some w ->
  wash_trading_percentage w = Num 0 /\ total_volume w = Num 0 /\
  total_sales w = Num 0.
Proof.
  intro H. unfold getCollectionWashTrading in H.
  destruct response as [data|]; cbn [bind] in H; [|discriminate H].
  destruct (washTradingOf NumberToString StringToNumber data) eqn:E;
    [|discriminate H].
  injection H as <-. exact (washTradingOf_zero _ _ _ _ E).
Qed.

(** Whatever the upstream API answers, a record that
    getCollectionWashTrading returns has its percentage, its total volume
    and its total sales at 0.  A failed request and a response without
    data give null, and a response object with neither data points nor
    metrics gives the record that is 0 throughout. *)
Theorem getCollectionWashTrading_zero_totals (NumberToString : number -> string)
    (StringToNumber : string -> number) (response : result jsval) :
  (forall w,
     getCollectionWashTrading NumberToString StringToNumber response = Some w ->
     wash_trading_percentage w = Num 0 /\ total_volume w = Num 0 /\
     total_sales w = Num 0) /\
  (forall e, getCollectionWashTrading NumberToString StringToNumber (Throw e) = None) /\
  getCollectionWashTrading NumberToString StringToNumber (Return JNull) = None /\
  (forall fields,
     truthy (lookup "data_points" fields) = false
     \/ lookup "data_points" fields = JArr [] ->
     truthy (lookup "metrics" fields) = false ->
     getCollectionWashTrading NumberToString StringToNumber (Return (JObj fields)) =
     Some {| wash_trading_volume := Num 0; total_volume := Num 0;
             wash_trading_percentage := Num 0; wash_trading_sales := Num 0;
             total_sales := Num 0; wash_trading_wallets := Num 0;
             wash_trading_assets := Num 0; risk_score := JNum (Num 0);
             note := Message |}).
Proof.
  split; [|split; [|split]].
  - intros w H. exact (getCollectionWashTrading_zero _ _ _ _ H).
  - reflexivity.
  - reflexivity.
  - intros fields Hp Hm.
    unfold getCollectionWashTrading, washTradingOf. cbn [bind get].
    destruct Hp as [Hp|Hp]; rewrite Hp; cbn [bind]; rewrite Hm; reflexivity.
Qed.

Lemma getCollectionWashTrading_zero_totals_witness :
  getCollectionWashTrading (fun _ => "") (fun _ => NaN)
    (Return (JObj [("blockchain", JNum (Num 1)); ("data_points", JArr [])])) =
  Some {| wash_trading_volume := Num 0; total_volume := Num 0;
          wash_trading_percentage := Num 0; wash_trading_sales := Num 0;
          total_sales := Num 0; wash_trading_wallets := Num 0;
          wash_trading_assets := Num 0; risk_score := JNum (Num 0);
          note := Message |}.
Proof.
  refine (proj2 (proj2 (proj2
            (getCollectionWashTrading_zero_totals (fun _ => "") (fun _ => NaN)
               (Return JNull)))) _ _ _); [right|]; reflexivity.
Defined.

(** A data point that is an array has the inherited [values] function
    for its values: it is selected as the latest data point, and every
    figure read from it is 0. *)
Example array_data_point_selected :
  getCollectionWashTrading (fun _ => "") (fun _ => NaN)
    (Return (JObj [("data_points", JArr [JArr [JNum (Num 1)]])])) =
  Some {| wash_trading_volume := Num 0; total_volume := Num 0;
          wash_trading_percentage := Num 0; wash_trading_sales := Num 0;
          total_sales := Num 0; wash_trading_wallets := Num 0;
          wash_trading_assets := Num 0; risk_score := JNum (Num 0);
          note := Date JUndefined |}.
Proof. reflexivity. Qed.

Lemma getCollectionData_price_change (NumberToString : number -> string)
    (address : string) (collectionResponse : result CollectionInfo)
    (metricsResponse : result jsval) (c : CollectionData) :
  getCollectionData NumberToString address collectionResponse metricsResponse
    = Some c ->
  floor_price_change_24h c = Num 0.
Proof.
  unfold getCollectionData. intro H.
  match type of H with
  | match ?m with Return _ => _ | Throw _ => _ end = _ =>
      destruct m as [c'|] eqn:E; [|discriminate H]
  end.
  injection H as <-. returned E. injection E as <-. reflexivity.
Qed.

(** A collection that getCollectionData returns has the address it was
    asked for and a name; none of its numeric fields is NaN; its two
    price changes are 0 and its fully diluted market cap is its market
    cap. *)
Theorem getCollectionData_fields (NumberToString : number -> string)
    (address : string) (collectionResponse : result CollectionInfo)
    (metricsResponse : result jsval) (c : CollectionData) :
  getCollectionData NumberToString address collectionResponse metricsResponse
    = Some c ->
  Collection.contract_address c = address /\ Collection.name c <> "" /\
  floor_price_change_24h c = Num 0 /\ average_price_change_24h c = Num 0 /\
  fully_diluted_market_cap c = market_cap c /\
  forallb (fun field => negb (isNaN (field c)))
    [owner_count; Collection.nft_count; Collection.volume_24h;
     Collection.floor_price; average_price_24h; Collection.sales_24h;
     Collection.volume_change_24h; sales_change_24h; market_cap] = true.
Proof.
  unfold getCollectionData. intro H.
  destruct collectionResponse as [collection|]; cbn [bind] in H; [|discriminate H].
  destruct metricsResponse as [data|]; cbn [bind] in H; [|discriminate H].
  destruct (get data "metric_values") as [metric_values|]; cbn [bind] in H;
    [|discriminate H].
  repeat match type of H with
  | context [bind (bind ?m ?k) _] =>
      destruct m as [?v|]; cbn [bind] in H; [|discriminate H];
      match type of H with
      | context [bind (getValue ?N ?x) _] =>
          let E := fresh "E" in
          destruct (getValue N x) as [?n|] eqn:E; cbn [bind] in H;
          [apply ClientFacts.getValue_not_NaN in E|discriminate H]
      end
  end.
  injection H as <-.
  cbn [Collection.contract_address Collection.name floor_price_change_24h
       average_price_change_24h fully_diluted_market_cap market_cap
       owner_count Collection.nft_count Collection.volume_24h
       Collection.floor_price average_price_24h Collection.sales_24h
       Collection.volume_change_24h sales_change_24h forallb].
  repeat split.
  - destruct (info_name collection) as [label|]; [|discriminate].
    destruct (label =? "") eqn:En; [discriminate|].
    intro He. rewrite He in En. discriminate En.
  - repeat match goal with
    | E : isNaN ?n = false |- context [isNaN ?n] => rewrite E
    end.
    cbn [negb andb].
    destruct (info_nft_count collection) as [k|]; [|reflexivity].
    unfold num_or. destruct k as [q| | |]; cbn; try reflexivity.
    destruct (Qeq_bool q 0); reflexivity.
Qed.

Lemma getCollectionData_fields_witness :
  Collection.contract_address sample_listing = "0xabc" /\
  Collection.name sample_listing <> "" /\
  floor_price_change_24h sample_listing = Num 0 /\
  average_price_change_24h sample_listing = Num 0 /\
  fully_diluted_market_cap sample_listing = market_cap sample_listing /\
  forallb (fun field => negb (isNaN (field sample_listing)))
    [owner_count; Collection.nft_count; Collection.volume_24h;
     Collection.floor_price; average_price_24h; Collection.sales_24h;
     Collection.volume_change_24h; sales_change_24h; market_cap] = true.
Proof.
  apply (getCollectionData_fields (fun _ => "") "0xabc"
           (Return {| info_name := Some "Sample"; info_nft_count := None |})
           (Return sample_metrics_response)).
  reflexivity.
Defined.

Lemma lowerChar_idempotent (c : ascii) : lowerChar (lowerChar c) = lowerChar c.
Proof. destruct c as [[] [] [] [] [] [] [] []]; reflexivity. Qed.

Lemma toLowerCase_idempotent (s : string) :
  toLowerCase (toLowerCase s) = toLowerCase s.
Proof.
  induction s as [|c s IH]; cbn [toLowerCase]; [reflexivity|].
  now rewrite lowerChar_idempotent, IH.
Qed.

(** The chain identifier does not depend on the case of the name, it is
    one of the five identifiers of the map whenever it is an identifier,
    and a name that is none of the five chains (nor one of the two
    inherited names) silently gets the identifier of Ethereum. *)
Theorem getBlockchainId_fallback (blockchain : string) :
  getBlockchainId (toLowerCase blockchain) = getBlockchainId blockchain /\
  (forall id, getBlockchainId blockchain = ChainId id ->
              In id ["1"; "137"; "56"; "42161"; "10"]) /\
  (~ In (toLowerCase blockchain)
        ["polygon"; "bsc"; "arbitrum"; "optimism"; "constructor"; "__proto__"] ->
   getBlockchainId blockchain = ChainId "1").
Proof.
  unfold getBlockchainId. rewrite toLowerCase_idempotent.
  split; [reflexivity|].
  set (key := toLowerCase blockchain).
  assert (K : forall name, (key =? name) = true -> key = name)
    by (intros name; apply String.eqb_eq).
  pose proof (K "polygon") as K1. pose proof (K "bsc") as K2.
  pose proof (K "arbitrum") as K3. pose proof (K "optimism") as K4.
  pose proof (K "constructor") as K5. pose proof (K "__proto__") as K6.
  clear K.
  destruct (key =? "ethereum");
    [|destruct (key =? "polygon");
      [|destruct (key =? "bsc");
        [|destruct (key =? "arbitrum");
          [|destruct (key =? "optimism");
            [|destruct (key =? "constructor");
              [|destruct (key =? "__proto__")]]]]]];
    cbn [orb];
    (split;
     [ intros id H; first [discriminate H | injection H as <-];
       cbn [In]; repeat (first [left; reflexivity | right])
     | intro N; first [reflexivity | exfalso; apply N; cbn [In]] ]);
    repeat match goal with
    | H : true = true -> _ |- _ => specialize (H eq_refl)
    end; auto 10.
Qed.

Lemma getBlockchainId_fallback_witness :
  getBlockchainId "Solana" = ChainId "1".
Proof.
  refine (proj2 (proj2 (getBlockchainId_fallback "Solana")) _).
  cbn. intros [H|[H|[H|[H|[H|[H|[]]]]]]]; discriminate H.
Defined.

Example getBlockchainId_samples :
  map getBlockchainId ["Polygon"; "BSC"; "ethereum"; "constructor"]
  = [ChainId "137"; ChainId "56"; ChainId "1"; Inherited "constructor"].
Proof. reflexivity. Qed.

Example parseInt_string_samples :
  map parseInt_string ["42"; "  -17 sales"; "0x1F"; "NA"; "3.9"; "0x"; ""]
  = [Num 42; Num (-17); Num 31; NaN; Num 3; NaN; NaN].
Proof. reflexivity. Qed.

End UnleashClientFacts.

(** * Further properties of the wash-trading and collection tools *)

Module ClientDataFacts.
Import UnleashClient UnleashClientAux.

(** With the wash-trading data of the client, detectWashTrading never
    detects anything: whatever the upstream API answered, the severity is
    MINIMAL, nothing is detected, no suspicious pattern is listed, the
    analysis and the recommendations are the ones of a collection without
    wash trading at 0.0%, and no data point is reported as analysed. *)
Theorem detectWashTrading_never_detects (NumberToString : number -> string)
    (StringToNumber : string -> number) (response : result jsval)
    (collectionData : option CollectionData)
    (collection_address time_range blockchain : string) (w : WashTrading) :
  getCollectionWashTrading NumberToString StringToNumber response = Some w ->
  exists d,
    WashTradingTool.detectWashTrading NumberToString
      (getCollectionWashTrading NumberToString StringToNumber response)
      collectionData collection_address time_range blockchain
    = WashTradingTool.Detected d /\
    WashTradingTool.wash_trading_detected d = false /\
    WashTradingTool.severity d = WashTrading.MINIMAL /\
    WashTradingTool.suspicious_patterns d = [] /\
    WashTradingTool.recommendations d =
      ["No significant wash trading concerns";
       "Standard due diligence recommended";
       "Current wash trading represents 0.0% of total volume"] /\
    WashTradingTool.analysis d =
      "This collection shows minimal wash trading activity (0.0%), which is within normal market parameters. The trading patterns appear organic with no significant artificial volume inflation detected." /\
    WashTradingTool.data_points_analyzed (WashTradingTool.evidence d) = Num 0.
Proof.
  intro H. rewrite H.
  destruct (UnleashClientFacts.getCollectionWashTrading_zero
              NumberToString StringToNumber response w H) as (Hp & _ & Hs).
  unfold WashTradingTool.detectWashTrading. eexists. split; [reflexivity|].
  cbn [WashTradingTool.wash_trading_detected WashTradingTool.severity
       WashTradingTool.suspicious_patterns WashTradingTool.recommendations
       WashTradingTool.analysis WashTradingTool.evidence
       WashTradingTool.data_points_analyzed].
  unfold WashTradingTool.generateWashTradingAnalysis.
  rewrite !Hp, Hs.
  split; [reflexivity|]. split; [reflexivity|]. split; [reflexivity|].
  split; [vm_compute; reflexivity|]. split; [vm_compute; reflexivity|].
  reflexivity.
Qed.

Lemma detectWashTrading_never_detects_witness :
  exists d,
    WashTradingTool.detectWashTrading (fun _ => "")
      (getCollectionWashTrading (fun _ => "") (fun _ => NaN)
         (Return sample_trend_response))
      None "0xabc" "7d" "ethereum"
    = WashTradingTool.Detected d /\
    WashTradingTool.wash_trading_detected d = false /\
    WashTradingTool.severity d = WashTrading.MINIMAL /\
    WashTradingTool.suspicious_patterns d = [] /\
    WashTradingTool.recommendations d =
      ["No significant wash trading concerns";
       "Standard due diligence recommended";
       "Current wash trading represents 0.0% of total volume"] /\
    WashTradingTool.analysis d =
      "This collection shows minimal wash trading activity (0.0%), which is within normal market parameters. The trading patterns appear organic with no significant artificial volume inflation detected." /\
    WashTradingTool.data_points_analyzed (WashTradingTool.evidence d) = Num 0.
Proof.
  apply (detectWashTrading_never_detects (fun _ => "") (fun _ => NaN)
           (Return sample_trend_response) None "0xabc" "7d" "ethereum"
           sample_trend_record).
  reflexivity.
Defined.

(** With the data of the client, analyzeCollection never answers
    HIGH_RISK: the collection has a floor price change of 0 and the
    wash-trading data a percentage of 0, so only the holder count and the
    volume decline can cost points, the safety score is at least 65 and
    the recommendation is SAFE or CAUTION. *)
Theorem analyzeCollection_never_high_risk (NumberToString : number -> string)
    (StringToNumber : string -> number) (address : string)
    (collectionResponse : result CollectionInfo)
    (metricsResponse trendResponse : result jsval)
    (c : CollectionData) (w : option WashTradingData) :
  getCollectionData NumberToString address collectionResponse metricsResponse
    = Some c ->
  (forall m, w = Some m ->
     exists r,
       getCollectionWashTrading NumberToString StringToNumber trendResponse
         = Some r /\
       Collection.wash_trading_percentage m = wash_trading_percentage r) ->
  let a := AnalyzeCollection.analyze c w in
  (Num 65 <=? AnalyzeCollection.safety_score a)%js = true /\
  AnalyzeCollection.recommendation a <> AnalyzeCollection.HIGH_RISK /\
  forallb (fun tag =>
             existsb (String.eqb tag)
               ["low_holder_count"; "moderate_holder_count"; "sharp_volume_decline"])
    (AnalyzeCollection.risks a) = true.
Proof.
  intros Hc Hw.
  pose proof (UnleashClientFacts.getCollectionData_price_change _ _ _ _ _ Hc)
    as Hf.
  assert (Hp : forall m, w = Some m ->
                         Collection.wash_trading_percentage m = Num 0).
  { intros m Hm. destruct (Hw m Hm) as [r [Hr ->]].
    exact (proj1 (UnleashClientFacts.getCollectionWashTrading_zero _ _ _ _ Hr)). }
  cbv zeta. unfold AnalyzeCollection.analyze. rewrite Hf.
  change (Math_abs (Num 0) >? Num 30)%js with false.
  generalize (owner_count c <? Num 100)%js (owner_count c <? Num 500)%js
    (Collection.volume_change_24h c <? Num (-50))%js.
  intros o1 o2 v.
  destruct w as [m|]; [rewrite (Hp m eq_refl)|];
    destruct o1, o2, v; vm_compute; repeat split; discriminate.
Qed.

Lemma analyzeCollection_never_high_risk_witness :
  let a := AnalyzeCollection.analyze sample_listing (Some sample_trend_data) in
  (Num 65 <=? AnalyzeCollection.safety_score a)%js = true /\
  AnalyzeCollection.recommendation a <> AnalyzeCollection.HIGH_RISK /\
  forallb (fun tag =>
             existsb (String.eqb tag)
               ["low_holder_count"; "moderate_holder_count"; "sharp_volume_decline"])
    (AnalyzeCollection.risks a) = true.
Proof.
  apply (analyzeCollection_never_high_risk (fun _ => "") (fun _ => NaN) "0xabc"
           (Return {| info_name := Some "Sample"; info_nft_count := None |})
           (Return sample_metrics_response) (Return sample_trend_response)).
  - reflexivity.
  - intros m Hm. injection Hm as <-. exists sample_trend_record.
    split; reflexivity.
Defined.

End ClientDataFacts.

(** * Further properties of the market trends tool *)

Module MarketTrendsToolFacts.
Import Market MarketTrends MarketTrendsTool.


Lemma of_nat_positive (n : nat) :
  (of_nat n >? Num 0)%js = negb (n =? 0)%nat.
Proof.
  destruct n as [|n]; [reflexivity|].
  cbn [Nat.eqb negb]. unfold of_nat, num_gt. cbn [num_lt].
  apply Qltb_true. unfold Qlt. cbn. lia.
Qed.

Lemma length_append (a b : string) :
  String.length (a ++ b) = (String.length a + String.length b)%nat.
Proof. induction a as [|c a IH]; cbn; [reflexivity | now rewrite IH]. Qed.

Lemma entry_line_long (label line : string) :
  (String.length line < 80)%nat ->
  label ++ " showing strong volume growth without price appreciation - potential entry opportunity"
  <> line.
Proof.
  intros Hlen Heq. rewrite <- Heq in Hlen.
  rewrite length_append in Hlen. cbn in Hlen. lia.
Qed.

(** With the market metrics of the client the insights never speak of
    volume, traders or prices: they are the count of the trending
    collections that grew by more than 50%, when there is one, followed
    by the sentence of a neutral market; and the two market-timing
    opportunities are never offered. *)
Theorem client_market_insights (NumberToString : number -> string)
    (source trending : list CollectionData) (m : MarketMetrics) :
  getMarketMetrics source = Some m ->
  generateMarketInsights NumberToString m trending (determineMarketSentiment m) =
    List.app
      (let n := List.length
                  (filter (fun c => (Collection.volume_change_24h c >? Num 50)%js)
                     trending) in
       if (n =? 0)%nat then []
       else [natToString n
             ++ " collections showing explosive growth (>50% volume increase)"])
      ["Market showing mixed signals - selective opportunities may exist"] /\
  ~ In "Market downturn may present buying opportunities for quality collections"
       (identifyOpportunities trending m) /\
  ~ In "Strong market momentum - consider taking profits on overextended positions"
       (identifyOpportunities trending m).
Proof.
  intro H. unfold getMarketMetrics in H.
  destruct source as [|c0 rest]; [discriminate H|]. injection H as <-.
  split.
  - unfold generateMarketInsights, determineMarketSentiment.
    cbn [volume_change_24h active_wallets_change average_price_change
         sales_change_24h].
    change (Math_abs (Num 0)) with (Num 0).
    change (Num 0 >? Num 30)%js with false.
    change (Num 0 >? Num 20)%js with false.
    change (Num 0 >? Num 15)%js with false.
    change (Num 0 <? Num (-15))%js with false.
    cbv iota. rewrite of_nat_positive.
    destruct (List.length _ =? 0)%nat; reflexivity.
  - unfold identifyOpportunities, push.
    cbn [volume_change_24h active_wallets_change average_price_change].
    change ((Num 0 <? Num (-20))%js && (Num 0 <? Num (-15))%js) with false.
    change ((Num 0 >? Num 30)%js && (Num 0 >? Num 20)%js) with false.
    cbv iota.
    destruct (filter _ trending) as [|first rest1];
      destruct (filter _ trending) as [|second rest2];
      cbn [app In]; split; intro F;
      repeat match goal with
      | F : _ \/ _ |- _ => destruct F as [F|F]
      | F : False |- _ => contradiction
      end;
      try discriminate F;
      (eapply entry_line_long; [|exact F]; cbn; lia).
Qed.

Lemma client_market_insights_witness :
  generateMarketInsights (fun _ => "") MarketAux.client_market
    InvestmentAdviceAux.six_candidates
    (determineMarketSentiment MarketAux.client_market) =
  ["Market showing mixed signals - selective opportunities may exist"].
Proof.
  apply (client_market_insights (fun _ => "")
           InvestmentAdviceAux.six_candidates InvestmentAdviceAux.six_candidates
           MarketAux.client_market).
  reflexivity.
Defined.

End MarketTrendsToolFacts.

(** * Further properties of the investment advice handler *)

Module AdviceToolFacts.
Import Market InvestmentAdvice AdviceTool.

(** A risk tolerance or an investment horizon outside its three values is
    answered with the validation error of the first of the two that is
    invalid, without the error mark and before any request to the
    client. *)
Theorem invalid_profile_rejected_before_fetch
    (NumberToString : number -> string) (client : Client) (budget : number)
    (risk_tolerance investment_horizon : string) (log : list UpstreamCall) :
  includes risk_tolerance ["conservative"; "moderate"; "aggressive"]
  && includes investment_horizon ["short"; "medium"; "long"] = false ->
  let (response, log') :=
    getInvestmentAdvice NumberToString client budget risk_tolerance
      investment_horizon log in
  log' = log /\ isError response = false /\
  payload response =
    (if includes risk_tolerance ["conservative"; "moderate"; "aggressive"]
     then InvalidHorizon investment_horizon
     else InvalidRiskTolerance risk_tolerance).
Proof.
  intro H. unfold getInvestmentAdvice.
  destruct (includes risk_tolerance _); cbn [negb andb] in *.
  - rewrite H. cbn [negb]. repeat split.
  - repeat split.
Qed.

Lemma invalid_profile_rejected_before_fetch_witness :
  let (response, log') :=
    getInvestmentAdvice (fun _ => "") (aggregatingClient (fun _ => []))
      (Num 1000) "medium" "medium" [] in
  log' = [] /\ isError response = false /\
  payload response = InvalidRiskTolerance "medium".
Proof.
  apply (invalid_profile_rejected_before_fetch (fun _ => "")
           (aggregatingClient (fun _ => [])) (Num 1000) "medium" "medium" []).
  reflexivity.
Defined.




End AdviceToolFacts.
